(** * Sema-ASR: the transcription service of [src/asr.py]

    A shallow embedding of the FastAPI module [asr.py]: the module-level
    engine state ([asr_processor], [asr_model], [asr_device]), the engine
    functions [load_model], [preprocess_audio] and [transcribe], and the two
    HTTP handlers [transcribe_audio] (POST /transcribe/) and [health_check]
    (GET /health).

    Conventions of the embedding.
    - A Python [str] is a Rocq [string]; a character is a code point below
      256, so that [str.lower], [str.strip] and [str.startswith] are the
      Python functions restricted to that range.
    - Python exceptions are values of [exn]; a computation that may raise
      returns a [result].  Only subclasses of [Exception] are modelled
      (an [except Exception] clause catches every [exn]): a
      [KeyboardInterrupt], a [SystemExit] or a cancellation of the request
      is outside the model.
    - Paths are POSIX paths ([os.path] is [posixpath]).
    - The file system is a finite map from paths to file contents.  What
      the operating system and the third-party libraries decide (the
      candidate names of [tempfile], whether a write or an unlink fails
      and how many bytes a failed write leaves behind, the order in which
      a [set] is iterated, what the decoder and the network return) is
      read from the records [OsEnv] and [Backend].
    - Effects are threaded by a state-and-exception monad [M] over [world];
      the world also keeps a chronological [trace] of the file-system and
      engine events and of the [logger] calls. *)

From Stdlib Require Import ZArith Ascii String List Lia Bool.
From stdpp Require Import base option list gmap strings pretty.

Local Open Scope Z_scope.

(** ** Python string primitives *)

Module PyStr.

(** [s[:k]] for [0 <= k]. *)
Fixpoint take (k : nat) (s : string) : string :=
  match k, s with
  | S k', String a s' => String a (take k' s')
  | _, _ => ""
  end.

(** [s[k:]] for [0 <= k]. *)
Fixpoint drop (k : nat) (s : string) : string :=
  match k, s with
  | S k', String _ s' => drop k' s'
  | _, _ => s
  end.

(** [s[i:i+1]]: the one-character slice at [i], empty out of range. *)
Definition slice1 (s : string) (i : Z) : string :=
  if i <? 0 then "" else take 1 (drop (Z.to_nat i) s).

(** [s.rfind(c)] for a one-character [c], on the suffix [s] of a string
    whose first character has index [i]: the highest index, or [-1]. *)
Fixpoint rfind_from (c : ascii) (s : string) (i : Z) : Z :=
  match s with
  | "" => -1
  | String a s' =>
      let r := rfind_from c s' (i + 1) in
      if 0 <=? r then r else if Ascii.eqb a c then i else -1
  end.

Definition rfind (c : ascii) (s : string) : Z := rfind_from c s 0.

(** [s.startswith(p)]. *)
Definition startswith (s p : string) : bool := String.prefix p s.

(** [str.lower] on one code point below 256: A-Z and the Latin-1 capitals
    (U+00C0-U+00DE but the multiplication sign U+00D7) move up by 32. *)
Definition lower_char (a : ascii) : ascii :=
  let n := N_of_ascii a in
  if ((65 <=? n) && (n <=? 90))%N then ascii_of_N (n + 32)
  else if ((192 <=? n) && (n <=? 222) && negb (n =? 215))%N
       then ascii_of_N (n + 32)
  else a.

Fixpoint lower (s : string) : string :=
  match s with
  | "" => ""
  | String a s' => String (lower_char a) (lower s')
  end.

(** [str.isspace] on one code point below 256: U+0009-U+000D,
    U+001C-U+0020, U+0085 and U+00A0. *)
Definition isspace (a : ascii) : bool :=
  let n := N_of_ascii a in
  (((9 <=? n) && (n <=? 13)) || ((28 <=? n) && (n <=? 32))
   || (n =? 133) || (n =? 160))%N.

(** [s.lstrip()]. *)
Fixpoint lstrip (s : string) : string :=
  match s with
  | "" => ""
  | String a s' => if isspace a then lstrip s' else s
  end.

(** [s.rstrip()]: a character is kept when it is not white space or when
    something is kept after it. *)
Fixpoint rstrip (s : string) : string :=
  match s with
  | "" => ""
  | String a s' =>
      match rstrip s' with
      | "" => if isspace a then "" else String a ""
      | r => String a r
      end
  end.

(** [s.strip()]. *)
Definition strip (s : string) : string := rstrip (lstrip s).

(** [sep.join(l)]. *)
Fixpoint join (sep : string) (l : list string) : string :=
  match l with
  | [] => ""
  | [x] => x
  | x :: l' => x +:+ sep +:+ join sep l'
  end.

(** [a in s]: [a] occurs in [s] as a substring. *)
Fixpoint contains (s a : string) : bool :=
  String.prefix a s
  || match s with
     | "" => false
     | String _ s' => contains s' a
     end.

(** First and last character of a string. *)
Definition first (s : string) : option ascii :=
  match s with "" => None | String a _ => Some a end.

Fixpoint last (s : string) : option ascii :=
  match s with
  | "" => None
  | String a "" => Some a
  | String _ s' => last s'
  end.

End PyStr.

(** ** [os.path.splitext] (posixpath)

    [genericpath._splitext(p, sep="/", altsep=None, extsep=".")]: the
    extension starts at the last dot of the last path component, unless
    that component has only dots before it. *)

(** The [while filenameIndex < dotIndex] loop: [true] when some character
    in [[filenameIndex, dotIndex)] is not a dot.  [n] is the number of
    iterations left, [dotIndex - filenameIndex]. *)
Fixpoint splitext_scan (p : string) (filenameIndex : Z) (n : nat) : bool :=
  match n with
  | O => false
  | S n' =>
      if negb (String.eqb (PyStr.slice1 p filenameIndex) ".") then true
      else splitext_scan p (filenameIndex + 1) n'
  end.

Definition splitext (p : string) : string * string :=
  let sepIndex := PyStr.rfind "/" p in
  let dotIndex := PyStr.rfind "." p in
  if (sepIndex <? dotIndex)
     && splitext_scan p (sepIndex + 1) (Z.to_nat (dotIndex - (sepIndex + 1)))
  then (PyStr.take (Z.to_nat dotIndex) p, PyStr.drop (Z.to_nat dotIndex) p)
  else (p, "").

(** ** Exceptions, results and values *)

(** The exception classes the module distinguishes.  [OtherException]
    stands for every other subclass of [Exception] (OSError, ValueError,
    ...) and carries its [str(e)]. *)
Inductive exn : Type :=
| ASRError (msg : string)
| HTTPException (status_code : Z) (detail : string)
| OtherException (msg : string).

(** [str(e)]; Starlette prints an [HTTPException] as "status: detail". *)
Definition str (e : exn) : string :=
  match e with
  | ASRError msg => msg
  | HTTPException c d => pretty c +:+ ": " +:+ d
  | OtherException msg => msg
  end.

(** [type(e)]: the class of an exception. *)
Inductive exn_class : Type :=
| ASRError_class
| HTTPException_class
| Exception_class.

Definition class_of (e : exn) : exn_class :=
  match e with
  | ASRError _ => ASRError_class
  | HTTPException _ _ => HTTPException_class
  | OtherException _ => Exception_class
  end.

(** [isinstance(e, ASRError)]: what [except ASRError] dispatches on. *)
Definition is_ASRError (e : exn) : bool :=
  match e with ASRError _ => true | _ => false end.

Inductive result (A : Type) : Type :=
| Ok (a : A)
| Raise (e : exn).
Arguments Ok {A} a.
Arguments Raise {A} e.

(** The values stored in the dictionaries the handlers return. *)
Inductive pyval : Type :=
| PNone
| PBool (b : bool)
| PInt (z : Z)
| PStr (s : string).

(** A Python [dict] literal, in insertion order. *)
Definition pydict : Type := list (string * pyval).

Fixpoint dict_get (d : pydict) (k : string) : option pyval :=
  match d with
  | [] => None
  | (k', v) :: d' => if String.eqb k k' then Some v else dict_get d' k
  end.

(** ** The world: engine globals, file system, trace *)

Record Wav2Vec2Processor : Type := { processor_name : string }.

Record Wav2Vec2ForCTC : Type :=
  { model_name : string; model_device : string; training : bool }.

Inductive level : Type := DEBUG | INFO | WARNING | ERROR.

Inductive event : Type :=
| EvCreate (path : string)       (* a file is created on disk *)
| EvWrite (path : string)        (* bytes are written to a file *)
| EvUnlink (path : string)       (* a file is removed *)
| EvTranscribe (path : string)   (* the engine is invoked on a path *)
| EvLog (lv : level) (msg : string).

Record world : Type :=
  { asr_processor : option Wav2Vec2Processor;
    asr_model : option Wav2Vec2ForCTC;
    asr_device : option string;
    fs : gmap string string;
    trace : list event }.

Definition set_fs (f : gmap string string) (w : world) : world :=
  {| asr_processor := asr_processor w; asr_model := asr_model w;
     asr_device := asr_device w; fs := f; trace := trace w |}.

Definition add_events (evs : list event) (w : world) : world :=
  {| asr_processor := asr_processor w; asr_model := asr_model w;
     asr_device := asr_device w; fs := fs w; trace := trace w ++ evs |}.

Definition set_asr_processor (p : option Wav2Vec2Processor) (w : world)
  : world :=
  {| asr_processor := p; asr_model := asr_model w;
     asr_device := asr_device w; fs := fs w; trace := trace w |}.

Definition set_asr_model (m : option Wav2Vec2ForCTC) (w : world) : world :=
  {| asr_processor := asr_processor w; asr_model := m;
     asr_device := asr_device w; fs := fs w; trace := trace w |}.

Definition set_asr_device (d : option string) (w : world) : world :=
  {| asr_processor := asr_processor w; asr_model := asr_model w;
     asr_device := d; fs := fs w; trace := trace w |}.

(** The module as imported before [load_model()] has run, on a disk [f]. *)
Definition initial_world (f : gmap string string) : world :=
  {| asr_processor := None; asr_model := None; asr_device := None;
     fs := f; trace := [] |}.

(** ** Two monads

    [M] is for code that changes the world (the handlers, [load_model]);
    [E] is for the engine, which reads the world and returns its log
    records but changes nothing.  Both raise and catch exceptions. *)

Definition M (A : Type) : Type := world -> result A * world.
Definition E (A : Type) : Type := world -> list (level * string) * result A.

Class PyMonad (m : Type -> Type) : Type :=
  { ret : forall {A}, A -> m A;
    bind : forall {A B}, m A -> (A -> m B) -> m B;
    raise : forall {A}, exn -> m A;
    (* try: c  except Exception as e: h e *)
    try_except : forall {A}, m A -> (exn -> m A) -> m A;
    (* logger.<level>(msg) *)
    log : level -> string -> m unit }.

#[export] Instance PyMonad_M : PyMonad M :=
  {| ret := fun A a w => (Ok a, w);
     bind := fun A B c k w =>
       match c w with
       | (Ok a, w') => k a w'
       | (Raise e, w') => (Raise e, w')
       end;
     raise := fun A e w => (Raise e, w);
     try_except := fun A c h w =>
       match c w with
       | (Ok a, w') => (Ok a, w')
       | (Raise e, w') => h e w'
       end;
     log := fun lv msg w => (Ok tt, add_events [EvLog lv msg] w) |}.

#[export] Instance PyMonad_E : PyMonad E :=
  {| ret := fun A a w => ([], Ok a);
     bind := fun A B c k w =>
       match c w with
       | (l, Ok a) => let (l', r) := k a w in (l ++ l', r)
       | (l, Raise e) => (l, Raise e)
       end;
     raise := fun A e w => ([], Raise e);
     try_except := fun A c h w =>
       match c w with
       | (l, Ok a) => (l, Ok a)
       | (l, Raise e) => let (l', r) := h e w in (l ++ l', r)
       end;
     log := fun lv msg w => ([(lv, msg)], Ok tt) |}.

Declare Scope py_scope.
Delimit Scope py_scope with py.
Notation "x <- c ;; k" := (bind c (fun x => k))
  (at level 100, c at next level, right associativity) : py_scope.
Notation "c ;;; k" := (bind c (fun _ => k))
  (at level 100, right associativity) : py_scope.

(** [try: c  finally: f].  The [finally] clauses of this module catch their
    own exceptions, but an exception of [f] would replace the outcome of
    [c], as in Python. *)
Definition try_finally {A} (c : M A) (f : M unit) : M A :=
  fun w =>
    let (r, w') := c w in
    match f w' with
    | (Ok _, w'') => (r, w'')
    | (Raise e, w'') => (Raise e, w'')
    end.

Definition log_event (rec : level * string) : event :=
  EvLog (fst rec) (snd rec).

(** An engine computation run from a handler: its log records are appended
    to the trace, nothing else changes. *)
Definition liftE {A} (c : E A) : M A :=
  fun w => let (l, r) := c w in (r, add_events (map log_event l) w).

Definition emit (ev : event) : M unit :=
  fun w => (Ok tt, add_events [ev] w).

(** ** The operating system *)

(** What the operating system decides during one request. *)
Record OsEnv : Type :=
  { (* the names [tempfile] draws, directory and prefix included, in the
       order it tries them *)
    temp_names : list string;
    (* [os.open] of a free name fails with this message *)
    create_error : option string;
    (* [await file.read()] fails with this message *)
    read_error : option string;
    (* writing or closing the temporary file fails with this message *)
    write_error : option string;
    (* how many bytes of the upload have reached the file when the write
       fails *)
    written_before_error : nat;
    (* [os.unlink] fails with this message *)
    unlink_error : option string;
    (* the order in which this interpreter iterates over the set of
       extensions (it follows the hash seed of the process) *)
    extensions_order : list string }.

Record UploadFile : Type :=
  { filename : option string;
    content_type : option string;
    body : string }.

(** [tempfile._mkstemp_inner]: the first candidate that does not exist
    yet ([O_EXCL]); none when every candidate is taken. *)
Fixpoint mkstemp_inner (names : list string) (suffix : string)
    (files : gmap string string) : option string :=
  match names with
  | [] => None
  | n :: names' =>
      match files !! (n +:+ suffix) with
      | None => Some (n +:+ suffix)
      | Some _ => mkstemp_inner names' suffix files
      end
  end.

(** [tempfile.NamedTemporaryFile(delete=False, suffix=suffix)]: creates an
    empty file under a name that was free and returns the name. *)
Definition NamedTemporaryFile (env : OsEnv) (suffix : string) : M string :=
  fun w =>
    match mkstemp_inner (temp_names env) suffix (fs w) with
    | None =>
        (Raise (OtherException
                  "[Errno 17] No usable temporary file name found"), w)
    | Some name =>
        match create_error env with
        | Some msg => (Raise (OtherException msg), w)
        | None =>
            (Ok name,
             add_events [EvCreate name] (set_fs (<[name := ""]> (fs w)) w))
        end
    end.

(** [await file.read()]. *)
Definition file_read (env : OsEnv) (file : UploadFile) : M string :=
  match read_error env with
  | Some msg => raise (OtherException msg)
  | None => ret (body file)
  end.

(** [temp_file.write(contents)], the flush at the end of the [with] block
    included.  A write that fails may have put the first bytes of the
    upload in the file.  With [delete=False] leaving the block removes
    nothing. *)
Definition file_write (env : OsEnv) (name contents : string) : M unit :=
  fun w =>
    match write_error env with
    | Some msg =>
        (Raise (OtherException msg),
         set_fs (<[name := PyStr.take (written_before_error env) contents]>
                   (fs w)) w)
    | None =>
        (Ok tt,
         add_events [EvWrite name] (set_fs (<[name := contents]> (fs w)) w))
    end.

(** [os.path.exists(path)]. *)
Definition path_exists (path : string) : M bool :=
  fun w => (Ok (bool_decide (is_Some (fs w !! path))), w).

(** [os.unlink(path)] of an existing path. *)
Definition unlink (env : OsEnv) (path : string) : M unit :=
  fun w =>
    match unlink_error env with
    | Some msg => (Raise (OtherException msg), w)
    | None =>
        (Ok tt, add_events [EvUnlink path] (set_fs (delete path (fs w)) w))
    end.

(** ** POST /transcribe/ *)

Definition HTTP_400_BAD_REQUEST : Z := 400.
Definition HTTP_422_UNPROCESSABLE_ENTITY : Z := 422.
Definition HTTP_500_INTERNAL_SERVER_ERROR : Z := 500.

(** The literal [{'.wav', '.mp3', '.ogg', '.flac', '.aac', '.m4a', '.wma'}].
    It is a Python set: membership is what the handler tests; the order in
    which [', '.join] lists it in the 400 message is the interpreter's,
    [extensions_order]. *)
Definition audio_extensions : list string :=
  [".wav"; ".mp3"; ".ogg"; ".flac"; ".aac"; ".m4a"; ".wma"].

(** [os.path.splitext(file.filename or '')[1].lower()]. *)
Definition file_extension (file : UploadFile) : string :=
  PyStr.lower (snd (splitext (default "" (filename file)))).

(** An f-string prints [None] for a missing value. *)
Definition str_opt (o : option string) : string := default "None" o.

(** The engine as the handler sees it: a function from a path to a text
    that reads the world, may log, and may raise. *)
Definition engine : Type := string -> E string.

Section Handler.

Local Open Scope py_scope.

(** The function bound to the name [transcribe] when the handler runs. *)
Variable transcribe : engine.
Variable env : OsEnv.

(** The [if] / [elif] that guards the handler: both branches raise
    [HTTPException(400)]. *)
Definition validate (file : UploadFile) : M unit :=
  let check_extension : M unit :=
    if negb (bool_decide (file_extension file ∈ audio_extensions))
    then raise (HTTPException HTTP_400_BAD_REQUEST
                  ("Unsupported audio format. Supported formats: "
                   +:+ PyStr.join ", " (extensions_order env)))
    else ret tt in
  match content_type file with
  | Some ct =>
      if negb (PyStr.startswith ct "audio/")
      then raise (HTTPException HTTP_400_BAD_REQUEST
                    ("Invalid file type. Expected audio file, got " +:+ ct))
      else check_extension
  | None => check_extension
  end.

(** The first [try] block: the upload is copied to a new temporary file
    whose name is returned. *)
Definition stage (file : UploadFile) : M string :=
  try_except
    (temp_file <- NamedTemporaryFile env ".wav" ;;
     contents <- file_read env file ;;
     file_write env temp_file contents ;;;
     ret temp_file)
    (fun e =>
       let error_msg := "Failed to save uploaded file: " +:+ str e in
       log ERROR error_msg ;;;
       raise (HTTPException HTTP_500_INTERNAL_SERVER_ERROR error_msg)).

(** The [finally] clause. *)
Definition cleanup (temp_file_path : string) : M unit :=
  try_except
    (b <- path_exists temp_file_path ;;
     if b : bool then unlink env temp_file_path else ret tt)
    (fun e =>
       log WARNING ("Failed to delete temporary file: " +:+ str e)).

(** The second [try] block with its [except] clauses. *)
Definition process (file : UploadFile) (language temp_file_path : string)
  : M pydict :=
  try_except
    (log INFO ("Processing audio file: " +:+ str_opt (filename file)) ;;;
     emit (EvTranscribe temp_file_path) ;;;
     transcription <- liftE (transcribe temp_file_path) ;;
     let response :=
       [("status", PStr "success");
        ("transcription", PStr transcription);
        ("language", PStr language);
        ("model", PStr "RareElf/swahili-wav2vec2-asr");
        ("model_version", PStr "1.0.0");
        ("duration_seconds", PNone)] in
     ret response)
    (fun e =>
       if is_ASRError e then
         let error_msg := "ASR processing error: " +:+ str e in
         log ERROR error_msg ;;;
         raise (HTTPException HTTP_422_UNPROCESSABLE_ENTITY error_msg)
       else
         let error_msg :=
           "Unexpected error during transcription: " +:+ str e in
         log ERROR error_msg ;;;
         raise (HTTPException HTTP_500_INTERNAL_SERVER_ERROR
                  "An unexpected error occurred during transcription")).

(** [transcribe_audio(file, language="sw")]; [language_param] is [None]
    when the request has no [language] parameter. *)
Definition transcribe_audio (file : UploadFile)
    (language_param : option string) : M pydict :=
  let language := default "sw" language_param in
  validate file ;;;
  temp_file_path <- stage file ;;
  try_finally (process file language temp_file_path)
              (cleanup temp_file_path).

End Handler.

(** ** Binary64 arithmetic

    The non-negative finite doubles, as a mantissa and an exponent, with
    the correctly rounded operations (to nearest, ties to even) that the
    resampler's length computation uses.  The exponent range is not
    modelled: no overflow and no subnormal numbers, which sampling rates
    and frame counts are far from. *)

Module Binary64.

(** The double [m * 2^e]. *)
Definition t : Type := Z * Z.

(** The quotient [a / b] of two non-negative integers, [b > 0], scaled by
    [2^-e]: as a fraction. *)
Definition scaled (a b e : Z) : Z * Z :=
  if 0 <=? e then (a, b * 2 ^ e) else (a * 2 ^ (- e), b).

(** The double nearest to [a / b], for [0 <= a] and [0 < b]: the exponent
    is chosen to leave 53 bits in the mantissa, which is then rounded to
    the nearest integer, to the even one on a tie. *)
Definition round (a b : Z) : t :=
  if a <=? 0 then (0, 0)
  else
    let e0 := Z.log2 a - Z.log2 b - 52 in
    let e := let (x, y) := scaled a b e0 in
             if x / y <? 2 ^ 52 then e0 - 1 else e0 in
    let (x, y) := scaled a b e in
    let q := x / y in
    let r := x mod y in
    let m := if (y <? 2 * r) || ((2 * r =? y) && Z.odd q)
             then q + 1 else q in
    (m, e).

(** [float(n)]. *)
Definition of_Z (n : Z) : t := round n 1.

(** [x / y] for [y > 0]. *)
Definition div (x y : t) : t :=
  let (mx, ex) := x in
  let (my, ey) := y in
  if 0 <=? ex - ey then round (mx * 2 ^ (ex - ey)) my
  else round mx (my * 2 ^ (ey - ex)).

(** [x * y]. *)
Definition mul (x y : t) : t :=
  let (mx, ex) := x in
  let (my, ey) := y in
  if 0 <=? ex + ey then round (mx * my * 2 ^ (ex + ey)) 1
  else round (mx * my) (2 ^ (- (ex + ey))).

(** [int(np.ceil(x))]. *)
Definition ceil (x : t) : Z :=
  let (m, e) := x in
  if 0 <=? e then m * 2 ^ e else - ((- m) / 2 ^ (- e)).

(** The value of a double as a fraction [num / den] of integers. *)
Definition num (x : t) : Z :=
  let (m, e) := x in if 0 <=? e then m * 2 ^ e else m.

Definition den (x : t) : Z :=
  let (m, e) := x in if 0 <=? e then 1 else 2 ^ (- e).

End Binary64.

(** ** The engine *)

Definition SAMPLE_RATE : Z := 16000.
Definition MAX_INPUT_LENGTH : Z := 30.

(** A decoded sound file: its native sampling rate and one list of
    samples per channel. *)
Record SoundFile (A : Type) : Type :=
  { samplerate : positive;
    channels : list (list A) }.
Arguments samplerate {A} s.
Arguments channels {A} s.

(** A numpy array of one or two dimensions, and a torch tensor of two or
    three. *)
Inductive ndarray (A : Type) : Type :=
| Arr1 (y : list A)
| Arr2 (rows : list (list A)).
Arguments Arr1 {A} y.
Arguments Arr2 {A} rows.

Inductive tensor (A : Type) : Type :=
| T2 (rows : list (list A))
| T3 (planes : list (list (list A))).
Arguments T2 {A} rows.
Arguments T3 {A} planes.

(** The third-party capabilities the engine calls: torch, transformers,
    soundfile and the numeric kernels of numpy and librosa. *)
Record Backend : Type :=
  { sample : Type;
    (* torch.cuda.is_available() *)
    cuda_is_available : bool;
    (* Wav2Vec2Processor.from_pretrained(name) *)
    processor_from_pretrained : string -> result Wav2Vec2Processor;
    (* Wav2Vec2ForCTC.from_pretrained(name).to(device) *)
    model_from_pretrained : string -> string -> result Wav2Vec2ForCTC;
    (* soundfile decoding the bytes of a file *)
    sf_read : string -> result (SoundFile sample);
    (* np.mean of the samples of one frame *)
    mean : list sample -> sample;
    (* the resampling filter: output sample [i] of [y] taken from rate
       [orig_sr] to rate [target_sr] *)
    resample_at : list sample -> Z -> Z -> nat -> sample;
    (* lines 139-155 of transcribe: processor, model, argmax and
       batch_decode(...)[0] *)
    infer : Wav2Vec2Processor -> Wav2Vec2ForCTC -> option string ->
            tensor sample -> result string }.

Section Engine.

Local Open Scope py_scope.

Variable B : Backend.
Local Abbreviation smp := (sample B).

(** A [result] of a library call, in a monad. *)
Definition lift_result {m} `{PyMonad m} {A} (r : result A) : m A :=
  match r with
  | Ok a => ret a
  | Raise e => raise e
  end.

(** *** [librosa.load]

    [librosa.load] is third-party code.  What follows models, after the
    library, what it does to the shape of the audio with the arguments
    that [preprocess_audio] gives it: how many frames are read, how the
    channels are merged, how many samples the resampler returns.  The
    sample values themselves are left to the kernels of the backend; the
    number of samples is computed in binary64, as the library does. *)

(** [sf_desc.read(frames=frame_duration, always_2d=False).T]: at most
    [frame_duration] frames; one dimension for a single channel. *)
Definition soundfile_read (snd : SoundFile smp) (frame_duration : Z)
  : ndarray smp :=
  match map (take (Z.to_nat frame_duration)) (channels snd) with
  | [y] => Arr1 y
  | rows => Arr2 rows
  end.

(** [librosa.to_mono]: the mean over the channels, frame by frame. *)
Definition to_mono (y : ndarray smp) : ndarray smp :=
  match y with
  | Arr1 y => Arr1 y
  | Arr2 rows =>
      Arr1 (map (fun i => mean B (omap (fun row => row !! i) rows))
                (seq 0 (length (hd [] rows))))
  end.

(** [int(np.ceil(n * (float(target_sr) / orig_sr)))], in binary64 as
    numpy computes it. *)
Definition resample_length (n : nat) (orig_sr target_sr : Z) : nat :=
  Z.to_nat
    (Binary64.ceil
       (Binary64.mul (Binary64.of_Z (Z.of_nat n))
          (Binary64.div (Binary64.of_Z target_sr) (Binary64.of_Z orig_sr)))).

Definition resample_row (y : list smp) (orig_sr target_sr : Z) : list smp :=
  map (resample_at B y orig_sr target_sr)
      (seq 0 (resample_length (length y) orig_sr target_sr)).

(** [librosa.resample]: the array is returned as it is when the rates
    agree. *)
Definition resample (y : ndarray smp) (orig_sr target_sr : Z) : ndarray smp :=
  if orig_sr =? target_sr then y
  else match y with
       | Arr1 y => Arr1 (resample_row y orig_sr target_sr)
       | Arr2 rows =>
           Arr2 (map (fun y => resample_row y orig_sr target_sr) rows)
       end.

(** [librosa.load(path, sr=sr, mono=mono, duration=duration)]: the file
    is decoded, cut to [duration] seconds at its native rate, mixed down
    when [mono], then resampled to [sr]. *)
Definition librosa_load (path : string) (sr : Z) (mono : bool)
    (duration : Z) : E (ndarray smp * Z) :=
  fun w =>
    match fs w !! path with
    | None =>
        ([], Raise (OtherException
           ("[Errno 2] No such file or directory: '" +:+ path +:+ "'")))
    | Some bytes =>
        match sf_read B bytes with
        | Raise e => ([], Raise e)
        | Ok snd =>
            let sr_native := Z.pos (samplerate snd) in
            let frame_duration := duration * sr_native in
            let y := soundfile_read snd frame_duration in
            let y := if mono then to_mono y else y in
            ([], Ok (resample y sr_native sr, sr))
        end
    end.

(** [torch.FloatTensor(waveform).unsqueeze(0)]. *)
Definition unsqueeze0 (y : ndarray smp) : tensor smp :=
  match y with
  | Arr1 y => T2 [y]
  | Arr2 rows => T3 [rows]
  end.

(** *** The functions of [asr.py] *)

Definition preprocess_audio (audio_path : string) : E (tensor smp) :=
  try_except
    (r <- librosa_load audio_path SAMPLE_RATE true MAX_INPUT_LENGTH ;;
     let waveform := fst r in
     let waveform := unsqueeze0 waveform in
     ret waveform)
    (fun e =>
       let error_msg := "Error processing audio: " +:+ str e in
       log ERROR error_msg ;;;
       raise (ASRError error_msg)).

(** The module-level [asr_processor], [asr_model] and [asr_device]. *)
Definition globals : E (option Wav2Vec2Processor * option Wav2Vec2ForCTC
                        * option string) :=
  fun w => ([], Ok (asr_processor w, asr_model w, asr_device w)).

Definition transcribe (audio_path : string) : E string :=
  g <- globals ;;
  match g with
  | (Some processor, Some model, device) =>
      try_except
        (waveform <- preprocess_audio audio_path ;;
         transcription <- lift_result (infer B processor model device
                                             waveform) ;;
         log DEBUG ("Raw transcription: " +:+ transcription) ;;;
         ret (PyStr.strip transcription))
        (fun e =>
           let error_msg := "Transcription failed: " +:+ str e in
           log ERROR error_msg ;;;
           raise (ASRError error_msg))
  | _ => raise (ASRError "ASR model not loaded")
  end.

(** [load_model(model_name)]: the three globals are assigned one after
    the other, so a failure leaves the earlier ones assigned.  The files
    that [from_pretrained] downloads to its cache are not modelled. *)
Definition assign (f : world -> world) : M unit :=
  fun w => (Ok tt, f w).

Definition load_model (name : string) : M unit :=
  try_except
    (log INFO ("Loading ASR model: " +:+ name) ;;;
     let device := if cuda_is_available B then "cuda" else "cpu" in
     assign (set_asr_device (Some device)) ;;;
     log INFO ("Using device: " +:+ device) ;;;
     log INFO "Loading processor..." ;;;
     processor <- lift_result (processor_from_pretrained B name) ;;
     assign (set_asr_processor (Some processor)) ;;;
     log INFO "Loading model..." ;;;
     model <- lift_result (model_from_pretrained B name device) ;;
     assign (set_asr_model (Some model)) ;;;
     (* asr_model.eval() *)
     assign (set_asr_model
               (Some {| model_name := model_name model;
                        model_device := model_device model;
                        training := false |})) ;;;
     log INFO ("Model loaded successfully on " +:+ device))
    (fun e =>
       let error_msg := "Failed to load ASR model: " +:+ str e in
       log ERROR error_msg ;;;
       raise (ASRError error_msg)).

End Engine.

(** The module body runs [load_model()] with its default argument. *)
Definition DEFAULT_MODEL_NAME : string := "RareElf/swahili-wav2vec2-asr".

Definition module_import (B : Backend) : M unit :=
  load_model B DEFAULT_MODEL_NAME.

(** ** GET /health *)

Section Health.

Local Open Scope py_scope.

(** The body of the [try] block of [health_check]. *)
Definition health_body : E pydict :=
  g <- globals ;;
  let '(_, model, device) := g in
  let model_status := if model is Some _ then "loaded" else "not loaded" in
  (* str(asr_device) if asr_device else "unknown": None and the empty
     string are false *)
  let device :=
    match device with
    | Some d => if String.eqb d "" then "unknown" else d
    | None => "unknown"
    end in
  ret [("status", PStr "healthy");
       ("model_loaded", PBool (bool_decide (is_Some model)));
       ("model_status", PStr model_status);
       ("device", PStr device);
       ("max_audio_length_seconds", PInt MAX_INPUT_LENGTH);
       ("sample_rate", PInt SAMPLE_RATE)].

(** The [try] / [except Exception] of [health_check] around a body. *)
Definition health_guard (body : E pydict) : E pydict :=
  try_except body
    (fun e =>
       log ERROR ("Health check failed: " +:+ str e) ;;;
       ret [("status", PStr "unhealthy"); ("error", PStr (str e))]).

Definition health_check : E pydict := health_guard health_body.

End Health.

(** [GET /]. *)
Definition root : string := "Welcome to Sema-ASR API!".

(** ** A concrete backend and concrete requests

    Used to run the definitions on examples. *)

Module Demo.

(** A two-channel file of four frames at 8 kHz behind the bytes "RIFF", a
    one-channel file of forty seconds at 2 Hz behind the bytes "LONG";
    anything else is not audio. *)
Definition decode (bytes : string) : result (SoundFile Z) :=
  if String.eqb bytes "RIFF"
  then Ok {| samplerate := 8000%positive;
             channels := [[10; 20; 30; 40]; [30; 40; 50; 60]] |}
  else if String.eqb bytes "LONG"
  then Ok {| samplerate := 2%positive; channels := [replicate 80 7] |}
  else Raise (OtherException "Error opening file: Format not recognised.").

Definition backend : Backend :=
  {| sample := Z;
     cuda_is_available := false;
     processor_from_pretrained := fun n => Ok {| processor_name := n |};
     model_from_pretrained := fun n d =>
       Ok {| model_name := n; model_device := d; training := true |};
     sf_read := decode;
     mean := fun l => foldr Z.add 0 l / Z.of_nat (length l);
     resample_at := fun y orig_sr target_sr i =>
       nth (Z.to_nat (Z.of_nat i * orig_sr / target_sr)) y 0;
     infer := fun _ _ _ _ => Ok "  habari ya asubuhi
" |}.

(** The same with a resampling filter that repeats the first sample. *)
Definition hold : Backend :=
  {| sample := Z;
     cuda_is_available := true;
     processor_from_pretrained := fun n => Ok {| processor_name := n |};
     model_from_pretrained := fun n d =>
       Ok {| model_name := n; model_device := d; training := true |};
     sf_read := decode;
     mean := fun l => foldr Z.add 0 l / Z.of_nat (length l);
     resample_at := fun y _ _ _ => hd 0 y;
     infer := fun _ _ _ _ => Ok "" |}.

(** A backend whose hub is unreachable. *)
Definition offline : Backend :=
  {| sample := Z;
     cuda_is_available := false;
     processor_from_pretrained := fun n => Ok {| processor_name := n |};
     model_from_pretrained := fun _ _ =>
       Raise (OtherException "Connection error");
     sf_read := decode;
     mean := fun l => foldr Z.add 0 l / Z.of_nat (length l);
     resample_at := fun y orig_sr target_sr i =>
       nth (Z.to_nat (Z.of_nat i * orig_sr / target_sr)) y 0;
     infer := fun _ _ _ _ => Ok "" |}.

(** The order of the set of extensions under one hash seed. *)
Definition hash_order : list string :=
  [".ogg"; ".m4a"; ".flac"; ".wma"; ".wav"; ".aac"; ".mp3"].

Definition env_ok : OsEnv :=
  {| temp_names := ["/tmp/tmpa1b2c3d4"; "/tmp/tmpe5f6g7h8"];
     create_error := None; read_error := None; write_error := None;
     written_before_error := 0; unlink_error := None;
     extensions_order := hash_order |}.

Definition env_disk_full : OsEnv :=
  {| temp_names := ["/tmp/tmpa1b2c3d4"; "/tmp/tmpe5f6g7h8"];
     create_error := None; read_error := None;
     write_error := Some "[Errno 28] No space left on device";
     written_before_error := 0; unlink_error := None;
     extensions_order := hash_order |}.

Definition env_no_tmp : OsEnv :=
  {| temp_names := ["/tmp/tmpa1b2c3d4"; "/tmp/tmpe5f6g7h8"];
     create_error := Some "[Errno 13] Permission denied";
     read_error := None; write_error := None; written_before_error := 0;
     unlink_error := None; extensions_order := hash_order |}.

Definition env_unlink_fails : OsEnv :=
  {| temp_names := ["/tmp/tmpa1b2c3d4"; "/tmp/tmpe5f6g7h8"];
     create_error := None; read_error := None; write_error := None;
     written_before_error := 0;
     unlink_error := Some "[Errno 13] Permission denied";
     extensions_order := hash_order |}.

Definition sample_wav : UploadFile :=
  {| filename := Some "sample.wav"; content_type := Some "audio/wav";
     body := "RIFF" |}.

Definition notes_txt : UploadFile :=
  {| filename := Some "notes.txt"; content_type := Some "text/plain";
     body := "hello" |}.

Definition noise_wav : UploadFile :=
  {| filename := Some "noise.WAV"; content_type := None;
     body := "not audio" |}.

Definition anonymous : UploadFile :=
  {| filename := None; content_type := None; body := "RIFF" |}.

(** A disk on which the first temporary name is already taken. *)
Definition disk : gmap string string :=
  {[ "/tmp/tmpa1b2c3d4.wav" := "old" ]}.

Definition w0 : world := initial_world disk.

(** The world once the module has been imported with [backend]. *)
Definition w1 : world := snd (module_import backend w0).

(** Engines that fail. *)
Definition engine_asr_error : engine :=
  fun _ => raise (ASRError "Transcription failed: out of memory").
Definition engine_crash : engine :=
  fun _ => raise (OtherException "segfault in libsox at 0x7f3a").

End Demo.

(** ** Observations on a run *)

(** The events a run added to the trace. *)
Definition new_events (w w' : world) : list event :=
  drop (length (trace w)) (trace w').

(** The files created, and the engine calls made, among some events. *)
Definition created (evs : list event) : list string :=
  omap (fun ev => match ev with EvCreate p => Some p | _ => None end) evs.

Definition engine_calls (evs : list event) : list string :=
  omap (fun ev => match ev with EvTranscribe p => Some p | _ => None end) evs.

(** The status line FastAPI sends: 200 for a returned value, the status of
    an [HTTPException], 500 for any other exception. *)
Definition http_status {A} (r : result A) : Z :=
  match r with
  | Ok _ => 200
  | Raise (HTTPException c _) => c
  | Raise _ => 500
  end.

(** The [detail] field of an error response. *)
Definition http_detail {A} (r : result A) : option string :=
  match r with
  | Raise (HTTPException _ d) => Some d
  | _ => None
  end.

(** An upload passes the [if] / [elif] of the handler. *)
Definition passes_validation (file : UploadFile) : bool :=
  match content_type file with
  | Some ct => PyStr.startswith ct "audio/"
  | None => true
  end
  && bool_decide (file_extension file ∈ audio_extensions).

(** Staging goes through: a free name is found and no system call fails. *)
Definition staging_succeeds (env : OsEnv) (w : world) (path : string) : Prop :=
  mkstemp_inner (temp_names env) ".wav" (fs w) = Some path
  ∧ create_error env = None
  ∧ read_error env = None
  ∧ write_error env = None.

(** The world in which the engine is called: the upload is on disk under
    [path] and the handler has logged the file name. *)
Definition staged_world (file : UploadFile) (path : string) (w : world)
  : world :=
  add_events
    [EvCreate path; EvWrite path;
     EvLog INFO ("Processing audio file: " +:+ str_opt (filename file));
     EvTranscribe path]
    (set_fs (<[path := body file]> (fs w)) w).

(** A string with no white space at either end. *)
Definition trimmed (s : string) : bool :=
  match PyStr.first s, PyStr.last s with
  | Some a, Some b => negb (PyStr.isspace a) && negb (PyStr.isspace b)
  | _, _ => true
  end.

(** The engine is not initialised: the test at the head of [transcribe]. *)
Definition not_loaded (w : world) : Prop :=
  asr_processor w = None ∨ asr_model w = None.

(** ** Further observations *)

(** An event is a [logger] call. *)
Definition is_log (ev : event) : bool :=
  match ev with EvLog _ _ => true | _ => false end.

(** The log line of the [except] clause that answers an engine failure. *)
Definition failure_log (e : exn) : event :=
  if is_ASRError e
  then EvLog ERROR ("ASR processing error: " +:+ str e)
  else EvLog ERROR ("Unexpected error during transcription: " +:+ str e).

(** What is in the temporary file when staging fails after creating it:
    nothing if the upload could not be read, the bytes that were written
    before the failure otherwise. *)
Definition left_in_file (env : OsEnv) (file : UploadFile) : string :=
  match read_error env with
  | Some _ => ""
  | None => PyStr.take (written_before_error env) (body file)
  end.

(** The same operating system with another outcome for [os.unlink]. *)
Definition with_unlink_error (o : option string) (env : OsEnv) : OsEnv :=
  {| temp_names := temp_names env; create_error := create_error env;
     read_error := read_error env; write_error := write_error env;
     written_before_error := written_before_error env;
     unlink_error := o; extensions_order := extensions_order env |}.

(** The same upload under another file name. *)
Definition with_filename (name : option string) (file : UploadFile)
  : UploadFile :=
  {| filename := name; content_type := content_type file;
     body := body file |}.

(** A string of white space only (the empty string included). *)
Fixpoint all_space (s : string) : bool :=
  match s with
  | "" => true
  | String a s' => PyStr.isspace a && all_space s'
  end.

(** The device [load_model] selects. *)
Definition selected_device (B : Backend) : string :=
  if cuda_is_available B then "cuda" else "cpu".

(** The worlds the service can be in: the module starts with its three
    globals at [None]; from then on [load_model] is called, requests are
    handled (by whatever engine is bound to [transcribe]) and the disk
    changes under other processes. *)
Inductive reachable (B : Backend) : world -> Prop :=
| reach_import (f : gmap string string) :
    reachable B (initial_world f)
| reach_load_model (name : string) (w : world) :
    reachable B w -> reachable B (snd (load_model B name w))
| reach_request (tr : engine) (env : OsEnv) (file : UploadFile)
    (lang : option string) (w : world) :
    reachable B w -> reachable B (snd (transcribe_audio tr env file lang w))
| reach_disk (f : gmap string string) (w : world) :
    reachable B w -> reachable B (set_fs f w).

(** What [health_check] puts under a key. *)
Definition health_field (w : world) (k : string) : option pyval :=
  match snd (health_check w) with
  | Ok d => dict_get d k
  | Raise _ => None
  end.

(** Further requests and environments to run the definitions on. *)
Module Scenario.

(** An MP3 upload with an upper-case extension and no content type. *)
Definition song_mp3 : UploadFile :=
  {| filename := Some "Wimbo.MP3"; content_type := None; body := "RIFF" |}.

(** An upload that is not audio behind an audio name. *)
Definition fake_wav : UploadFile :=
  {| filename := Some "fake.wav"; content_type := Some "audio/wav";
     body := "not audio" |}.

(** A temporary directory in which every name drawn is taken. *)
Definition env_exhausted : OsEnv :=
  {| temp_names := ["/tmp/tmpa1b2c3d4"];
     create_error := None; read_error := None; write_error := None;
     written_before_error := 0; unlink_error := None;
     extensions_order := Demo.hash_order |}.

(** A backend that decodes silence: the model outputs white space only. *)
Definition silent : Backend :=
  {| sample := Z;
     cuda_is_available := true;
     processor_from_pretrained := fun n => Ok {| processor_name := n |};
     model_from_pretrained := fun n d =>
       Ok {| model_name := n; model_device := d; training := true |};
     sf_read := Demo.decode;
     mean := fun l => foldr Z.add 0 l / Z.of_nat (length l);
     resample_at := fun y _ _ _ => hd 0 y;
     infer := fun _ _ _ _ => Ok "   " |}.

(** A mono file of three samples at 16 kHz. *)
Definition mono16k : SoundFile Z :=
  {| samplerate := 16000%positive; channels := [[5; 6; 7]] |}.

Definition native : Backend :=
  {| sample := Z;
     cuda_is_available := false;
     processor_from_pretrained := fun n => Ok {| processor_name := n |};
     model_from_pretrained := fun n d =>
       Ok {| model_name := n; model_device := d; training := true |};
     sf_read := fun _ => Ok mono16k;
     mean := fun l => foldr Z.add 0 l / Z.of_nat (length l);
     resample_at := fun y _ _ _ => hd 0 y;
     infer := fun _ _ _ _ => Ok "sawa" |}.

(** A disk that fills up after two bytes of the upload. *)
Definition env_disk_fills : OsEnv :=
  {| temp_names := ["/tmp/tmpa1b2c3d4"; "/tmp/tmpe5f6g7h8"];
     create_error := None; read_error := None;
     write_error := Some "[Errno 28] No space left on device";
     written_before_error := 2; unlink_error := None;
     extensions_order := Demo.hash_order |}.

(** An engine that fails with an exception that says little. *)
Definition engine_vague : engine :=
  fun _ => raise (OtherException "error").

End Scenario.

(** * Properties *)

(** ** The string functions on examples *)

Example splitext_wav : splitext "a/b.c/sample.WAV" = ("a/b.c/sample", ".WAV").
Proof. reflexivity. Qed.
Example splitext_hidden : splitext "dir/.bashrc" = ("dir/.bashrc", "").
Proof. reflexivity. Qed.
Example splitext_dots : splitext "...x.tar.gz" = ("...x.tar", ".gz").
Proof. reflexivity. Qed.
Example splitext_empty : splitext "" = ("", "").
Proof. reflexivity. Qed.
Example strip_ex : PyStr.strip "  habari  yako
 " = "habari  yako".
Proof. reflexivity. Qed.

(** ** The engine on examples *)

Example load_mono :
  librosa_load Demo.backend "a.wav" SAMPLE_RATE true MAX_INPUT_LENGTH
    (initial_world {[ "a.wav" := "RIFF" ]})
  = ([], Ok (Arr1 [20; 20; 30; 30; 40; 40; 50; 50], 16000)).
Proof. vm_compute. reflexivity. Qed.

Example load_stereo :
  librosa_load Demo.backend "a.wav" 8000 false MAX_INPUT_LENGTH
    (initial_world {[ "a.wav" := "RIFF" ]})
  = ([], Ok (Arr2 [[10; 20; 30; 40]; [30; 40; 50; 60]], 8000)).
Proof. vm_compute. reflexivity. Qed.

Example load_cut :
  librosa_load Demo.backend "a.wav" 2 true 1
    (initial_world {[ "a.wav" := "LONG" ]})
  = ([], Ok (Arr1 [7; 7], 2)).
Proof. vm_compute. reflexivity. Qed.

Example preprocess_long :
  match preprocess_audio Demo.hold "a.wav"
          (initial_world {[ "a.wav" := "LONG" ]}) with
  | (_, Ok (T2 [ys])) => Z.of_nat (length ys) = 480000
  | _ => False
  end.
Proof. vm_compute. reflexivity. Qed.

Example resample_length_cd :
  Z.of_nat (resample_length (Z.to_nat 1323000) 44100 16000) = 480000.
Proof. vm_compute. reflexivity. Qed.

(** Thirty seconds at 7350 Hz: the product is rounded up in binary64, and
    the resampler returns one sample more than the exact ceiling. *)
Example resample_length_rounded :
  Z.of_nat (resample_length (Z.to_nat 220500) 7350 16000) = 480001
  ∧ resample_length 147 7350 16000 = 321%nat
  ∧ (220500 * 16000) mod 7350 = 0
  ∧ 220500 * 16000 / 7350 = 480000.
Proof. vm_compute. repeat split. Qed.

Example preprocess_missing :
  preprocess_audio Demo.backend "a.wav" (initial_world ∅)
  = ([(ERROR, "Error processing audio: "
              +:+ "[Errno 2] No such file or directory: 'a.wav'")],
     Raise (ASRError ("Error processing audio: "
                      +:+ "[Errno 2] No such file or directory: 'a.wav'"))).
Proof. vm_compute. reflexivity. Qed.

Example load_model_offline :
  let w := snd (module_import Demo.offline (initial_world ∅)) in
  fst (module_import Demo.offline (initial_world ∅))
  = Raise (ASRError "Failed to load ASR model: Connection error")
  ∧ asr_model w = None
  ∧ asr_device w = Some "cpu"
  ∧ is_Some (asr_processor w).
Proof. vm_compute. eauto. Qed.

(** ** Basic facts *)

Lemma new_events_refl w : new_events w w = [].
Proof. unfold new_events. by rewrite drop_all. Qed.

Lemma add_events_add evs evs' w :
  add_events evs' (add_events evs w) = add_events (evs ++ evs') w.
Proof. unfold add_events; simpl. by rewrite <- app_assoc. Qed.

(** Computes the events a run added, when the final trace is the initial
    one with a list appended. *)
Ltac events :=
  unfold new_events, add_events, set_fs; simpl;
  rewrite <- ?app_assoc; rewrite drop_app_length; simpl.

(** [mkstemp_inner] returns a name that is free. *)
Lemma mkstemp_inner_fresh names suffix (files : gmap string string) path :
  mkstemp_inner names suffix files = Some path -> files !! path = None.
Proof.
  induction names as [|n names IH]; simpl; [done|].
  destruct (files !! (n +:+ suffix)) eqn:Hn; [exact IH|].
  by intros [= <-].
Qed.

(** The [if] / [elif] as a function of [passes_validation]. *)
Lemma validate_passes env file w :
  passes_validation file = true -> validate env file w = (Ok tt, w).
Proof.
  unfold passes_validation, validate.
  destruct (content_type file) as [ct|]; simpl.
  - intros [-> ->]%andb_true_iff. reflexivity.
  - intros ->. reflexivity.
Qed.

Lemma validate_rejects env file w :
  passes_validation file = false ->
  ∃ detail, validate env file w = (Raise (HTTPException 400 detail), w).
Proof.
  unfold passes_validation, validate.
  destruct (content_type file) as [ct|]; simpl.
  - destruct (PyStr.startswith ct "audio/"); simpl.
    + intros ->. eexists. reflexivity.
    + intros _. eexists. reflexivity.
  - intros ->. eexists. reflexivity.
Qed.

(** ** The stages of the handler *)

Section HandlerFacts.

Variable tr : engine.
Variable env : OsEnv.

(** Staging that goes through leaves the upload on disk under the new
    name and records one creation and one write. *)
Lemma stage_ok file w path :
  staging_succeeds env w path ->
  stage env file w
  = (Ok path,
     add_events [EvCreate path; EvWrite path]
       (set_fs (<[path := body file]> (fs w)) w)).
Proof.
  intros (Hname & Hc & Hr & Hw).
  unfold stage, NamedTemporaryFile, file_read, file_write; simpl.
  rewrite Hname, Hc, Hr; simpl. rewrite Hw; simpl.
  unfold add_events, set_fs; simpl. rewrite insert_insert_eq.
  by rewrite <- app_assoc.
Qed.

(** Staging fails with a 500 whatever goes wrong, and what it raises is
    never anything else. *)
Lemma stage_raises file w e w' :
  stage env file w = (Raise e, w') ->
  ∃ msg, e = HTTPException 500 ("Failed to save uploaded file: " +:+ msg)
         ∧ engine_calls (new_events w w') = [].
Proof.
  unfold stage, NamedTemporaryFile, file_read, file_write; simpl.
  destruct (mkstemp_inner _ _ _) as [name|]; simpl.
  - destruct (create_error env) as [msg|]; simpl.
    + intros [= <- <-]. eexists; split; [reflexivity|]. by events.
    + destruct (read_error env) as [msg|]; simpl.
      * intros [= <- <-]. eexists; split; [reflexivity|]. by events.
      * destruct (write_error env) as [msg|]; simpl; [|done].
        intros [= <- <-]. eexists; split; [reflexivity|]. by events.
  - intros [= <- <-]. eexists; split; [reflexivity|]. by events.
Qed.

(** The outcome of the second [try] block, by the outcome of the engine
    in the world it is called in. *)
Lemma process_spec file language path w :
  let w2 := add_events
              [EvLog INFO ("Processing audio file: "
                           +:+ str_opt (filename file));
               EvTranscribe path] w in
  process tr file language path w
  = match tr path w2 with
    | (l, Ok transcription) =>
        (Ok [("status", PStr "success");
             ("transcription", PStr transcription);
             ("language", PStr language);
             ("model", PStr "RareElf/swahili-wav2vec2-asr");
             ("model_version", PStr "1.0.0");
             ("duration_seconds", PNone)],
         add_events (map log_event l) w2)
    | (l, Raise e) =>
        if is_ASRError e then
          (Raise (HTTPException 422 ("ASR processing error: " +:+ str e)),
           add_events
             (map log_event l
              ++ [EvLog ERROR ("ASR processing error: " +:+ str e)]) w2)
        else
          (Raise (HTTPException 500
                    "An unexpected error occurred during transcription"),
           add_events
             (map log_event l
              ++ [EvLog ERROR ("Unexpected error during transcription: "
                               +:+ str e)]) w2)
    end.
Proof.
  intros w2. unfold process, liftE, emit; simpl.
  rewrite add_events_add; simpl. fold w2.
  destruct (tr path w2) as [l [t|e]]; simpl; [reflexivity|].
  destruct (is_ASRError e); simpl; by rewrite add_events_add.
Qed.

(** The [finally] clause never raises; it removes the file when the
    unlink goes through and only logs otherwise. *)
Lemma cleanup_spec path w :
  cleanup env path w
  = match fs w !! path, unlink_error env with
    | None, _ => (Ok tt, w)
    | Some _, None =>
        (Ok tt, add_events [EvUnlink path] (set_fs (delete path (fs w)) w))
    | Some _, Some msg =>
        (Ok tt,
         add_events
           [EvLog WARNING ("Failed to delete temporary file: " +:+ msg)] w)
    end.
Proof.
  unfold cleanup, path_exists, unlink; simpl.
  destruct (fs w !! path) as [c|] eqn:Hp; simpl; [|reflexivity].
  destruct (unlink_error env); reflexivity.
Qed.

(** The handler on an accepted upload whose staging goes through. *)
Lemma transcribe_audio_staged file lang w path :
  passes_validation file = true ->
  staging_succeeds env w path ->
  transcribe_audio tr env file lang w
  = try_finally
      (process tr file (default "sw" lang) path)
      (cleanup env path)
      (add_events [EvCreate path; EvWrite path]
         (set_fs (<[path := body file]> (fs w)) w)).
Proof.
  intros Hv Hs. unfold transcribe_audio; simpl.
  rewrite (validate_passes _ _ _ Hv), (stage_ok _ _ _ Hs). reflexivity.
Qed.

End HandlerFacts.

(** ** A whole request, once staged *)

Section Run.

Variable tr : engine.
Variable env : OsEnv.
Variables (file : UploadFile) (lang : option string).
Variables (w : world) (path : string).

Hypothesis Hvalid : passes_validation file = true.
Hypothesis Hstaged : staging_succeeds env w path.

(** The response and the final world, by the outcome [(l, r)] of the
    engine: the response is decided by [r] alone, and the [finally] clause
    then restores the file system unless the unlink fails. *)
Lemma transcribe_audio_run l r :
  tr path (staged_world file path w) = (l, r) ->
  ∃ evs,
    transcribe_audio tr env file lang w
    = (match r with
       | Ok transcription =>
           Ok [("status", PStr "success");
               ("transcription", PStr transcription);
               ("language", PStr (default "sw" lang));
               ("model", PStr "RareElf/swahili-wav2vec2-asr");
               ("model_version", PStr "1.0.0");
               ("duration_seconds", PNone)]
       | Raise e =>
           if is_ASRError e
           then Raise (HTTPException 422
                         ("ASR processing error: " +:+ str e))
           else Raise (HTTPException 500
                         "An unexpected error occurred during transcription")
       end,
       match unlink_error env with
       | None =>
           add_events (evs ++ [EvUnlink path])
             (set_fs (fs w) (staged_world file path w))
       | Some msg =>
           add_events
             (evs ++ [EvLog WARNING
                        ("Failed to delete temporary file: " +:+ msg)])
             (staged_world file path w)
       end)
    ∧ created evs = [] ∧ engine_calls evs = [].
Proof.
  intros Htr.
  rewrite (transcribe_audio_staged tr env file lang w path Hvalid Hstaged).
  unfold try_finally. rewrite process_spec.
  rewrite add_events_add; simpl. fold (staged_world file path w).
  rewrite Htr.
  assert (Hfree : fs w !! path = None).
  { destruct Hstaged as [Hname _].
    exact (mkstemp_inner_fresh _ _ _ _ Hname). }
  assert (Hlogs : ∀ l' : list (level * string),
             created (map log_event l') = []
             ∧ engine_calls (map log_event l') = []).
  { induction l' as [|x l' [IH1 IH2]]; [done|]. by simpl. }
  assert (Hcl : ∀ evs,
    cleanup env path (add_events evs (staged_world file path w))
    = (Ok tt,
       match unlink_error env with
       | None => add_events (evs ++ [EvUnlink path])
                   (set_fs (fs w) (staged_world file path w))
       | Some msg =>
           add_events
             (evs ++ [EvLog WARNING
                        ("Failed to delete temporary file: " +:+ msg)])
             (staged_world file path w)
       end)).
  { intros evs. rewrite cleanup_spec.
    replace (fs (add_events evs (staged_world file path w)) !! path)
      with (Some (body file)) by (symmetry; apply lookup_insert_eq).
    destruct (unlink_error env) as [msg|].
    - by rewrite add_events_add.
    - unfold add_events, set_fs, staged_world; simpl.
      rewrite (delete_insert_id _ _ _ Hfree).
      by rewrite <- !app_assoc. }
  destruct (Hlogs l) as [Hc He].
  destruct r as [t|e]; [|destruct (is_ASRError e)].
  - exists (map log_event l). rewrite Hcl. done.
  - eexists. rewrite Hcl. split; [reflexivity|].
    unfold created, engine_calls in *.
    rewrite !omap_app, Hc, He. done.
  - eexists. rewrite Hcl. split; [reflexivity|].
    unfold created, engine_calls in *.
    rewrite !omap_app, Hc, He. done.
Qed.

End Run.

(** ** Validation *)

Lemma transcribe_audio_rejected tr env file lang w detail :
  validate env file w = (Raise (HTTPException 400 detail), w) ->
  transcribe_audio tr env file lang w = (Raise (HTTPException 400 detail), w).
Proof. intros Hv. unfold transcribe_audio; simpl. by rewrite Hv. Qed.

(** C2: an upload whose declared content type is present and does not
    begin with "audio/", and an upload that passes that check but whose
    extension is not in the allow-list, are both answered with HTTP 400;
    the world is returned as it was, so no temporary file has been
    created. *)
Theorem invalid_upload_rejected_before_staging
    (tr : engine) (env : OsEnv) (file : UploadFile) (lang : option string)
    (w : world) :
  (∃ ct, content_type file = Some ct ∧ PyStr.startswith ct "audio/" = false)
  ∨ ((∀ ct, content_type file = Some ct ->
            PyStr.startswith ct "audio/" = true)
     ∧ file_extension file ∉ audio_extensions) ->
  ∃ detail,
    transcribe_audio tr env file lang w
    = (Raise (HTTPException 400 detail), w)
    ∧ http_status (fst (transcribe_audio tr env file lang w)) = 400
    ∧ created (new_events w (snd (transcribe_audio tr env file lang w))) = []
    ∧ fs (snd (transcribe_audio tr env file lang w)) = fs w.
Proof.
  intros H.
  assert (Hp : passes_validation file = false).
  { unfold passes_validation.
    destruct H as [(ct & -> & ->) | [_ Hext]]; [reflexivity|].
    rewrite (bool_decide_eq_false_2 _ Hext). apply andb_false_r. }
  destruct (validate_rejects env file w Hp) as [detail Hd].
  exists detail.
  rewrite (transcribe_audio_rejected tr env file lang w detail Hd); simpl.
  by rewrite new_events_refl.
Qed.

Lemma invalid_upload_rejected_before_staging_witness :
  (∃ detail,
     transcribe_audio (transcribe Demo.backend) Demo.env_ok Demo.notes_txt
       None Demo.w1
     = (Raise (HTTPException 400 detail), Demo.w1)
     ∧ http_status (fst (transcribe_audio (transcribe Demo.backend)
                           Demo.env_ok Demo.notes_txt None Demo.w1)) = 400
     ∧ created (new_events Demo.w1
                  (snd (transcribe_audio (transcribe Demo.backend)
                          Demo.env_ok Demo.notes_txt None Demo.w1))) = []
     ∧ fs (snd (transcribe_audio (transcribe Demo.backend)
                  Demo.env_ok Demo.notes_txt None Demo.w1)) = fs Demo.w1).
Proof.
  apply (invalid_upload_rejected_before_staging
           (transcribe Demo.backend) Demo.env_ok Demo.notes_txt None Demo.w1).
  left. exists "text/plain". split; reflexivity.
Defined.

(** C9: with no declared content type and a missing or empty file name the
    extension is the empty string, which is not in the allow-list, and the
    handler answers HTTP 400 with the "Unsupported audio format" detail,
    which lists the extensions in the order the interpreter iterates over
    the set; the world is returned as it was. *)
Theorem missing_filename_rejected
    (tr : engine) (env : OsEnv) (file : UploadFile) (lang : option string)
    (w : world) :
  content_type file = None ->
  filename file = None ∨ filename file = Some "" ->
  (file_extension file = "")
  ∧ ("" ∉ audio_extensions)
  ∧ (∃ formats,
       transcribe_audio tr env file lang w
       = (Raise (HTTPException 400
                   ("Unsupported audio format. Supported formats: "
                    +:+ formats)), w))
  ∧ http_status (fst (transcribe_audio tr env file lang w)) = 400.
Proof.
  intros Hct Hname.
  assert (Hext : file_extension file = "").
  { unfold file_extension. by destruct Hname as [-> | ->]. }
  assert (Hnot : "" ∉ audio_extensions).
  { apply (bool_decide_eq_false_1 ("" ∈ audio_extensions)). reflexivity. }
  assert (Hrun : transcribe_audio tr env file lang w
    = (Raise (HTTPException 400
                ("Unsupported audio format. Supported formats: "
                 +:+ PyStr.join ", " (extensions_order env))), w)).
  { apply transcribe_audio_rejected. unfold validate.
    rewrite Hct, Hext. reflexivity. }
  rewrite Hrun. split; [done|]. split; [done|]. split; [|done].
  by eexists.
Qed.

Lemma missing_filename_rejected_witness :
  (file_extension Demo.anonymous = "")
  ∧ ("" ∉ audio_extensions)
  ∧ (∃ formats,
       transcribe_audio (transcribe Demo.backend) Demo.env_ok Demo.anonymous
         None Demo.w1
       = (Raise (HTTPException 400
                   ("Unsupported audio format. Supported formats: "
                    +:+ formats)), Demo.w1))
  ∧ http_status (fst (transcribe_audio (transcribe Demo.backend) Demo.env_ok
                        Demo.anonymous None Demo.w1)) = 400.
Proof.
  apply (missing_filename_rejected (transcribe Demo.backend) Demo.env_ok
           Demo.anonymous None Demo.w1).
  - reflexivity.
  - left. reflexivity.
Defined.

(** ** Substrings *)

Lemma prefix_refl (s : string) : String.prefix s s = true.
Proof.
  induction s as [|a s IH]; [reflexivity|].
  cbn. destruct (ascii_dec a a); [exact IH|congruence].
Qed.

Lemma contains_self (s : string) : PyStr.contains s s = true.
Proof.
  destruct s as [|a s]; [reflexivity|].
  unfold PyStr.contains; fold PyStr.contains. by rewrite prefix_refl.
Qed.

(** A string occurs in whatever it is appended to. *)
Lemma contains_append (p s : string) : PyStr.contains (p +:+ s) s = true.
Proof.
  induction p as [|a p IH].
  - apply contains_self.
  - change (String a p +:+ s) with (String a (p +:+ s)).
    unfold PyStr.contains; fold PyStr.contains.
    rewrite IH. apply orb_true_r.
Qed.

(** ** Responses *)

(** C5: when validation, staging and the engine all go through, the
    handler returns (HTTP 200) the dictionary with exactly the keys status,
    transcription, language, model, model_version and duration_seconds:
    status "success", the text of the engine, the [language] parameter or
    "sw" when it is omitted, the fixed model identifier and version, and
    None for the duration. *)
Theorem success_response
    (tr : engine) (env : OsEnv) (file : UploadFile) (lang : option string)
    (w : world) (path : string) (l : list (level * string)) (text : string) :
  passes_validation file = true ->
  staging_succeeds env w path ->
  tr path (staged_world file path w) = (l, Ok text) ->
  fst (transcribe_audio tr env file lang w)
  = Ok [("status", PStr "success");
        ("transcription", PStr text);
        ("language", PStr (match lang with Some c => c | None => "sw" end));
        ("model", PStr "RareElf/swahili-wav2vec2-asr");
        ("model_version", PStr "1.0.0");
        ("duration_seconds", PNone)]
  ∧ http_status (fst (transcribe_audio tr env file lang w)) = 200.
Proof.
  intros Hv Hs Htr.
  destruct (transcribe_audio_run tr env file lang w path Hv Hs l _ Htr)
    as (evs & -> & _).
  simpl. by destruct lang.
Qed.

Lemma success_response_witness :
  fst (transcribe_audio (transcribe Demo.backend) Demo.env_ok Demo.sample_wav
         None Demo.w1)
  = Ok [("status", PStr "success");
        ("transcription", PStr "habari ya asubuhi");
        ("language", PStr "sw");
        ("model", PStr "RareElf/swahili-wav2vec2-asr");
        ("model_version", PStr "1.0.0");
        ("duration_seconds", PNone)]
  ∧ http_status (fst (transcribe_audio (transcribe Demo.backend) Demo.env_ok
                        Demo.sample_wav None Demo.w1)) = 200.
Proof.
  apply (success_response (transcribe Demo.backend) Demo.env_ok
           Demo.sample_wav None Demo.w1 "/tmp/tmpe5f6g7h8.wav"
           [(DEBUG, "Raw transcription:   habari ya asubuhi
")]).
  - reflexivity.
  - repeat split; vm_compute; reflexivity.
  - vm_compute. reflexivity.
Defined.

(** C3 as stated does not hold: the detail of the 500 response can
    contain the text of the exception.  The detail is one fixed sentence,
    and an exception whose text occurs in that sentence, such as "error",
    is contained in it. *)
Lemma fixed_detail_may_contain_text :
  ¬ (∀ (tr : engine) (env : OsEnv) (file : UploadFile)
       (lang : option string) (w : world) (path : string)
       (l : list (level * string)) (e : exn),
       passes_validation file = true ->
       staging_succeeds env w path ->
       tr path (staged_world file path w) = (l, Raise e) ->
       is_ASRError e = false ->
       ∀ d, http_detail (fst (transcribe_audio tr env file lang w)) = Some d
            -> PyStr.contains d (str e) = false).
Proof.
  intros H.
  assert (Hs : staging_succeeds Demo.env_ok Demo.w1 "/tmp/tmpe5f6g7h8.wav").
  { repeat split; vm_compute; reflexivity. }
  specialize (H Scenario.engine_vague Demo.env_ok Demo.sample_wav None
                Demo.w1 "/tmp/tmpe5f6g7h8.wav" [] (OtherException "error")
                eq_refl Hs eq_refl eq_refl
                "An unexpected error occurred during transcription" eq_refl).
  vm_compute in H. discriminate H.
Qed.

(** C3, as the code has it: when the engine raises an [ASRError] the
    response is HTTP 422 and its detail is "ASR processing error: "
    followed by the message of the error, which it therefore contains; when
    the engine raises anything else the response is HTTP 500 and its detail
    is one fixed sentence, so that any two such failures, of whatever
    engine and with whatever text, get the same response. *)
Theorem engine_failure_response
    (tr : engine) (env : OsEnv) (file : UploadFile) (lang : option string)
    (w : world) (path : string) (l : list (level * string)) (e : exn) :
  passes_validation file = true ->
  staging_succeeds env w path ->
  tr path (staged_world file path w) = (l, Raise e) ->
  match e with
  | ASRError msg =>
      fst (transcribe_audio tr env file lang w)
      = Raise (HTTPException 422 ("ASR processing error: " +:+ msg))
      ∧ PyStr.contains ("ASR processing error: " +:+ msg) msg = true
  | _ =>
      fst (transcribe_audio tr env file lang w)
      = Raise (HTTPException 500
                 "An unexpected error occurred during transcription")
      ∧ ∀ (tr' : engine) (l' : list (level * string)) (e' : exn),
          tr' path (staged_world file path w) = (l', Raise e') ->
          is_ASRError e' = false ->
          fst (transcribe_audio tr' env file lang w)
          = fst (transcribe_audio tr env file lang w)
  end.
Proof.
  intros Hv Hs Htr.
  assert (Hother : ∀ (tr' : engine) l' e',
    tr' path (staged_world file path w) = (l', Raise e') ->
    is_ASRError e' = false ->
    fst (transcribe_audio tr' env file lang w)
    = Raise (HTTPException 500
               "An unexpected error occurred during transcription")).
  { intros tr' l' e' Htr' He'.
    destruct (transcribe_audio_run tr' env file lang w path Hv Hs l' _ Htr')
      as (evs & -> & _).
    cbn [fst]. by rewrite He'. }
  destruct e as [msg|c d|msg].
  - destruct (transcribe_audio_run tr env file lang w path Hv Hs l _ Htr)
      as (evs & -> & _).
    split; [reflexivity|]. apply contains_append.
  - rewrite (Hother tr l _ Htr eq_refl). split; [reflexivity|].
    intros tr' l' e' Htr' He'. exact (Hother tr' l' e' Htr' He').
  - rewrite (Hother tr l _ Htr eq_refl). split; [reflexivity|].
    intros tr' l' e' Htr' He'. exact (Hother tr' l' e' Htr' He').
Qed.

Lemma engine_failure_response_witness :
  (fst (transcribe_audio Demo.engine_asr_error Demo.env_ok Demo.sample_wav
          None Demo.w1)
   = Raise (HTTPException 422
              ("ASR processing error: "
               +:+ "Transcription failed: out of memory"))
   ∧ PyStr.contains ("ASR processing error: "
                     +:+ "Transcription failed: out of memory")
       "Transcription failed: out of memory" = true)
  ∧ (fst (transcribe_audio Demo.engine_crash Demo.env_ok Demo.sample_wav
            None Demo.w1)
     = Raise (HTTPException 500
                "An unexpected error occurred during transcription")
     ∧ fst (transcribe_audio Scenario.engine_vague Demo.env_ok
              Demo.sample_wav None Demo.w1)
       = fst (transcribe_audio Demo.engine_crash Demo.env_ok Demo.sample_wav
                None Demo.w1)).
Proof.
  assert (Hs : staging_succeeds Demo.env_ok Demo.w1 "/tmp/tmpe5f6g7h8.wav").
  { repeat split; vm_compute; reflexivity. }
  split.
  - exact (engine_failure_response Demo.engine_asr_error Demo.env_ok
             Demo.sample_wav None Demo.w1 "/tmp/tmpe5f6g7h8.wav" []
             (ASRError "Transcription failed: out of memory")
             eq_refl Hs eq_refl).
  - destruct (engine_failure_response Demo.engine_crash Demo.env_ok
                Demo.sample_wav None Demo.w1 "/tmp/tmpe5f6g7h8.wav" []
                (OtherException "segfault in libsox at 0x7f3a")
                eq_refl Hs eq_refl) as [H1 H2].
    split; [exact H1|].
    exact (H2 Scenario.engine_vague [] (OtherException "error")
              eq_refl eq_refl).
Defined.

(** ** Staging failures *)

(** A failure of the first [try] block is the outcome of the request. *)
Lemma transcribe_audio_stage_fails tr env file lang w e w' :
  passes_validation file = true ->
  stage env file w = (Raise e, w') ->
  transcribe_audio tr env file lang w = (Raise e, w').
Proof.
  intros Hv Hs. unfold transcribe_audio; simpl.
  by rewrite (validate_passes _ _ _ Hv), Hs.
Qed.

(** C8: when the temporary file has been created but writing the upload to
    it fails, the handler answers HTTP 500 with the staging message, the
    engine is never called, and the outcome is the same whatever the engine
    is. *)
Theorem staging_write_failure
    (tr : engine) (env : OsEnv) (file : UploadFile) (lang : option string)
    (w : world) (path msg : string) :
  passes_validation file = true ->
  mkstemp_inner (temp_names env) ".wav" (fs w) = Some path ->
  create_error env = None ->
  read_error env = None ->
  write_error env = Some msg ->
  fst (transcribe_audio tr env file lang w)
  = Raise (HTTPException 500 ("Failed to save uploaded file: " +:+ msg))
  ∧ http_status (fst (transcribe_audio tr env file lang w)) = 500
  ∧ engine_calls (new_events w (snd (transcribe_audio tr env file lang w)))
    = []
  ∧ ∀ tr' : engine,
      transcribe_audio tr' env file lang w
      = transcribe_audio tr env file lang w.
Proof.
  intros Hv Hname Hc Hr Hw.
  assert (Hst : stage env file w
    = (Raise (HTTPException 500 ("Failed to save uploaded file: " +:+ msg)),
       add_events
         [EvCreate path;
          EvLog ERROR ("Failed to save uploaded file: " +:+ msg)]
         (set_fs (<[path := PyStr.take (written_before_error env)
                              (body file)]> (fs w)) w))).
  { unfold stage, NamedTemporaryFile, file_read, file_write; simpl.
    rewrite Hname, Hc, Hr; simpl. rewrite Hw; simpl.
    unfold add_events, set_fs; simpl.
    by rewrite insert_insert_eq, <- app_assoc. }
  rewrite (transcribe_audio_stage_fails tr env file lang w _ _ Hv Hst).
  repeat split.
  - by events.
  - intros tr'.
    by rewrite (transcribe_audio_stage_fails tr' env file lang w _ _ Hv Hst).
Qed.

Lemma staging_write_failure_witness :
  fst (transcribe_audio (transcribe Demo.backend) Demo.env_disk_full
         Demo.sample_wav None Demo.w1)
  = Raise (HTTPException 500
             ("Failed to save uploaded file: "
              +:+ "[Errno 28] No space left on device"))
  ∧ http_status (fst (transcribe_audio (transcribe Demo.backend)
                        Demo.env_disk_full Demo.sample_wav None Demo.w1))
    = 500
  ∧ engine_calls
      (new_events Demo.w1
         (snd (transcribe_audio (transcribe Demo.backend) Demo.env_disk_full
                 Demo.sample_wav None Demo.w1)))
    = []
  ∧ ∀ tr' : engine,
      transcribe_audio tr' Demo.env_disk_full Demo.sample_wav None Demo.w1
      = transcribe_audio (transcribe Demo.backend) Demo.env_disk_full
          Demo.sample_wav None Demo.w1.
Proof.
  apply (staging_write_failure (transcribe Demo.backend) Demo.env_disk_full
           Demo.sample_wav None Demo.w1 "/tmp/tmpe5f6g7h8.wav"
           "[Errno 28] No space left on device").
  - reflexivity.
  - vm_compute. reflexivity.
  - reflexivity.
  - reflexivity.
  - reflexivity.
Defined.

(** Every staging failure, not only a failed write, ends the request with
    HTTP 500 before the engine is reached. *)
Lemma staging_failure_skips_engine tr env file lang w e w' :
  passes_validation file = true ->
  stage env file w = (Raise e, w') ->
  transcribe_audio tr env file lang w = (Raise e, w')
  ∧ http_status (Raise (A := pydict) e) = 500
  ∧ engine_calls (new_events w w') = [].
Proof.
  intros Hv Hs.
  destruct (stage_raises env file w e w' Hs) as (msg & -> & Hcalls).
  split; [|done]. by apply transcribe_audio_stage_fails.
Qed.

(** ** The temporary file *)

(** C1, as the code has it: for an accepted upload whose staging goes
    through, exactly one temporary file is created, under a name that was
    free, and when the request is over (HTTP 200, 422 or 500, whatever the
    engine did) that file is gone and the file system is what it was,
    provided the unlink of the [finally] clause does not fail. *)
Theorem temp_file_created_once_and_removed
    (tr : engine) (env : OsEnv) (file : UploadFile) (lang : option string)
    (w : world) (path : string) :
  passes_validation file = true ->
  staging_succeeds env w path ->
  unlink_error env = None ->
  created (new_events w (snd (transcribe_audio tr env file lang w))) = [path]
  ∧ fs w !! path = None
  ∧ fs (snd (transcribe_audio tr env file lang w)) !! path = None
  ∧ fs (snd (transcribe_audio tr env file lang w)) = fs w
  ∧ http_status (fst (transcribe_audio tr env file lang w))
    ∈ [200; 422; 500].
Proof.
  intros Hv Hs Hu.
  assert (Hfree : fs w !! path = None).
  { destruct Hs as [Hname _]. exact (mkstemp_inner_fresh _ _ _ _ Hname). }
  destruct (tr path (staged_world file path w)) as [l r] eqn:Htr.
  destruct (transcribe_audio_run tr env file lang w path Hv Hs l r Htr)
    as (evs & -> & Hcr & _).
  rewrite Hu. cbn [fst snd].
  split; [|split; [done|split; [done|split; [done|]]]].
  - unfold staged_world. events.
    unfold created in *. rewrite omap_app, Hcr. reflexivity.
  - destruct r as [t|e]; [|destruct (is_ASRError e)]; simpl; set_solver.
Qed.

Lemma temp_file_created_once_and_removed_witness :
  created (new_events Demo.w1
             (snd (transcribe_audio (transcribe Demo.backend) Demo.env_ok
                     Demo.sample_wav None Demo.w1)))
  = ["/tmp/tmpe5f6g7h8.wav"]
  ∧ fs Demo.w1 !! "/tmp/tmpe5f6g7h8.wav" = None
  ∧ fs (snd (transcribe_audio (transcribe Demo.backend) Demo.env_ok
               Demo.sample_wav None Demo.w1)) !! "/tmp/tmpe5f6g7h8.wav" = None
  ∧ fs (snd (transcribe_audio (transcribe Demo.backend) Demo.env_ok
               Demo.sample_wav None Demo.w1)) = fs Demo.w1
  ∧ http_status (fst (transcribe_audio (transcribe Demo.backend) Demo.env_ok
                        Demo.sample_wav None Demo.w1)) ∈ [200; 422; 500].
Proof.
  apply (temp_file_created_once_and_removed (transcribe Demo.backend)
           Demo.env_ok Demo.sample_wav None Demo.w1 "/tmp/tmpe5f6g7h8.wav").
  - reflexivity.
  - repeat split; vm_compute; reflexivity.
  - reflexivity.
Defined.

(** What the handler does when the unlink fails: the response is the one
    of a clean run, the failure is only logged, and the file stays. *)
Lemma failed_unlink_run :
  passes_validation Demo.sample_wav = true
  ∧ fst (transcribe_audio (transcribe Demo.backend) Demo.env_unlink_fails
           Demo.sample_wav None Demo.w1)
    = fst (transcribe_audio (transcribe Demo.backend) Demo.env_ok
             Demo.sample_wav None Demo.w1)
  ∧ created
      (new_events Demo.w1
         (snd (transcribe_audio (transcribe Demo.backend)
                 Demo.env_unlink_fails Demo.sample_wav None Demo.w1)))
    = ["/tmp/tmpe5f6g7h8.wav"]
  ∧ fs (snd (transcribe_audio (transcribe Demo.backend)
               Demo.env_unlink_fails Demo.sample_wav None Demo.w1))
      !! "/tmp/tmpe5f6g7h8.wav" = Some "RIFF".
Proof. repeat split; vm_compute; reflexivity. Qed.

(** What the handler does when the write fails: the file that
    [NamedTemporaryFile(delete=False)] created is still there after the
    500, because the first [try] block has no [finally]. *)
Lemma failed_write_run :
  passes_validation Demo.sample_wav = true
  ∧ fst (transcribe_audio (transcribe Demo.backend) Demo.env_disk_full
           Demo.sample_wav None Demo.w1)
    = Raise (HTTPException 500
               ("Failed to save uploaded file: "
                +:+ "[Errno 28] No space left on device"))
  ∧ created
      (new_events Demo.w1
         (snd (transcribe_audio (transcribe Demo.backend)
                 Demo.env_disk_full Demo.sample_wav None Demo.w1)))
    = ["/tmp/tmpe5f6g7h8.wav"]
  ∧ fs (snd (transcribe_audio (transcribe Demo.backend)
               Demo.env_disk_full Demo.sample_wav None Demo.w1))
      !! "/tmp/tmpe5f6g7h8.wav" = Some "".
Proof. repeat split; vm_compute; reflexivity. Qed.

(** When no temporary file can be created, none is. *)
Lemma failed_create_run :
  passes_validation Demo.sample_wav = true
  ∧ fst (transcribe_audio (transcribe Demo.backend) Demo.env_no_tmp
           Demo.sample_wav None Demo.w1)
    = Raise (HTTPException 500
               "Failed to save uploaded file: [Errno 13] Permission denied")
  ∧ created
      (new_events Demo.w1
         (snd (transcribe_audio (transcribe Demo.backend)
                 Demo.env_no_tmp Demo.sample_wav None Demo.w1)))
    = [].
Proof. repeat split; vm_compute; reflexivity. Qed.

(** C1 as stated does not hold: it is not the case that every accepted
    upload leaves exactly one created temporary file that is gone when the
    request is over.  The request of [failed_unlink_run] is accepted and
    answered with HTTP 200, and its temporary file is still on disk. *)
Lemma temp_file_not_always_removed :
  ¬ (∀ (tr : engine) (env : OsEnv) (file : UploadFile)
       (lang : option string) (w : world),
       passes_validation file = true ->
       ∃ path,
         created (new_events w (snd (transcribe_audio tr env file lang w)))
         = [path]
         ∧ fs (snd (transcribe_audio tr env file lang w)) !! path = None).
Proof.
  intros H.
  destruct failed_unlink_run as (Hv & _ & Hc & Hf).
  destruct (H (transcribe Demo.backend) Demo.env_unlink_fails
              Demo.sample_wav None Demo.w1 Hv) as (path & Hc' & Hf').
  rewrite Hc in Hc'. injection Hc' as <-.
  rewrite Hf in Hf'. discriminate.
Qed.

(** ** The engine before and after initialisation *)

Section EngineFacts.

Variable B : Backend.

(** The guard at the head of [transcribe]. *)
Lemma transcribe_not_loaded audio_path w :
  not_loaded w ->
  transcribe B audio_path w = ([], Raise (ASRError "ASR model not loaded")).
Proof.
  unfold not_loaded, transcribe, globals; simpl.
  intros [-> | ->]; [reflexivity|].
  by destruct (asr_processor w).
Qed.

(** Past the guard, [transcribe] is its [try] block: whatever is raised
    inside comes out as an [ASRError] that starts with "Transcription
    failed: ", and what is returned is a stripped string. *)
Lemma transcribe_loaded audio_path w processor model :
  asr_processor w = Some processor ->
  asr_model w = Some model ->
  ∃ l,
    (∃ msg, transcribe B audio_path w
            = (l, Raise (ASRError ("Transcription failed: " +:+ msg))))
    ∨ (∃ waveform raw,
         infer B processor model (asr_device w) waveform = Ok raw
         ∧ transcribe B audio_path w = (l, Ok (PyStr.strip raw))).
Proof.
  intros Hp Hm. unfold transcribe, globals; simpl. rewrite Hp, Hm.
  destruct (preprocess_audio B audio_path w) as [l1 [waveform|e]]; simpl.
  - destruct (infer B processor model (asr_device w) waveform)
      as [raw|e] eqn:Hinf; simpl.
    + eexists. right. exists waveform, raw. split; [exact Hinf|reflexivity].
    + eexists. left. exists (str e). reflexivity.
  - eexists. left. exists (str e). reflexivity.
Qed.

Lemma transcribe_returns audio_path w l text :
  transcribe B audio_path w = (l, Ok text) ->
  ∃ processor model waveform raw,
    asr_processor w = Some processor
    ∧ asr_model w = Some model
    ∧ infer B processor model (asr_device w) waveform = Ok raw
    ∧ text = PyStr.strip raw.
Proof.
  intros H.
  destruct (asr_processor w) as [processor|] eqn:Hp;
    [destruct (asr_model w) as [model|] eqn:Hm|].
  - destruct (transcribe_loaded audio_path w processor model Hp Hm)
      as [l' [[msg Hr] | (waveform & raw & Hinf & Hr)]];
      rewrite Hr in H; [discriminate|].
    injection H as _ <-. by exists processor, model, waveform, raw.
  - rewrite transcribe_not_loaded in H by (by right). discriminate.
  - rewrite transcribe_not_loaded in H by (by left). discriminate.
Qed.

Lemma transcribe_raises_ASRError audio_path w l e :
  transcribe B audio_path w = (l, Raise e) -> class_of e = ASRError_class.
Proof.
  intros H.
  destruct (asr_processor w) as [processor|] eqn:Hp;
    [destruct (asr_model w) as [model|] eqn:Hm|].
  - destruct (transcribe_loaded audio_path w processor model Hp Hm)
      as [l' [[msg Hr] | (waveform & raw & Hinf & Hr)]];
      rewrite Hr in H; [|discriminate].
    by injection H as _ <-.
  - rewrite transcribe_not_loaded in H by (by right).
    by injection H as _ <-.
  - rewrite transcribe_not_loaded in H by (by left).
    by injection H as _ <-.
Qed.

(** Staging touches neither [asr_processor] nor [asr_model]. *)
Lemma staged_world_not_loaded file path w :
  not_loaded w -> not_loaded (staged_world file path w).
Proof. exact id. Qed.

End EngineFacts.

(** C4 as stated does not hold: the error raised before initialisation is
    not of a class of its own.  It is an [ASRError], the class [transcribe]
    raises for a failed transcription (here a missing file, once the
    engine is loaded). *)
Lemma not_loaded_error_is_an_ASRError :
  ¬ (∀ (B : Backend) (audio_path : string) (w w' : world)
       (l l' : list (level * string)) (e e' : exn),
       not_loaded w ->
       transcribe B audio_path w = (l, Raise e) ->
       ¬ not_loaded w' ->
       transcribe B audio_path w' = (l', Raise e') ->
       class_of e ≠ class_of e').
Proof.
  intros H.
  refine (H Demo.backend "/tmp/missing.wav" Demo.w0 Demo.w1 _ _ _ _
            _ eq_refl _ eq_refl eq_refl).
  - left. reflexivity.
  - intros [Hn | Hn]; discriminate Hn.
Qed.

(** C4, as the code has it: before the engine is initialised [transcribe]
    raises [ASRError("ASR model not loaded")]; an initialised engine never
    raises that error, since all its failures are [ASRError]s that start
    with "Transcription failed: "; both are of the one class [ASRError].
    The handler answers the uninitialised engine with HTTP 422 and the
    detail "ASR processing error: ASR model not loaded". *)
Theorem transcribe_before_load
    (B : Backend) (env : OsEnv) (file : UploadFile) (lang : option string)
    (w : world) (path audio_path : string) :
  not_loaded w ->
  passes_validation file = true ->
  staging_succeeds env w path ->
  transcribe B audio_path w = ([], Raise (ASRError "ASR model not loaded"))
  ∧ (∀ w' l e,
       ¬ not_loaded w' ->
       transcribe B audio_path w' = (l, Raise e) ->
       class_of e = ASRError_class
       ∧ (∃ msg, str e = "Transcription failed: " +:+ msg)
       ∧ e ≠ ASRError "ASR model not loaded")
  ∧ fst (transcribe_audio (transcribe B) env file lang w)
    = Raise (HTTPException 422 "ASR processing error: ASR model not loaded")
  ∧ PyStr.contains "ASR processing error: ASR model not loaded" "not loaded"
    = true.
Proof.
  intros Hn Hv Hs.
  split; [by apply transcribe_not_loaded|].
  split; [|split; [|reflexivity]].
  - intros w' l e Hl Hr.
    destruct (asr_processor w') as [processor|] eqn:Hp;
      [|destruct Hl; by left].
    destruct (asr_model w') as [model|] eqn:Hm; [|destruct Hl; by right].
    destruct (transcribe_loaded B audio_path w' processor model Hp Hm)
      as [l' [[msg Hr'] | (waveform & raw & Hinf & Hr')]];
      rewrite Hr' in Hr; [|discriminate].
    injection Hr as _ <-.
    split; [reflexivity|]. split; [by exists msg|]. discriminate.
  - pose proof (transcribe_not_loaded B path (staged_world file path w)
                  (staged_world_not_loaded file path w Hn)) as Htr.
    destruct (transcribe_audio_run (transcribe B) env file lang w path
                Hv Hs _ _ Htr) as (evs & -> & _).
    reflexivity.
Qed.

Lemma transcribe_before_load_witness :
  transcribe Demo.backend "/tmp/missing.wav" Demo.w0
  = ([], Raise (ASRError "ASR model not loaded"))
  ∧ (∀ w' l e,
       ¬ not_loaded w' ->
       transcribe Demo.backend "/tmp/missing.wav" w' = (l, Raise e) ->
       class_of e = ASRError_class
       ∧ (∃ msg, str e = "Transcription failed: " +:+ msg)
       ∧ e ≠ ASRError "ASR model not loaded")
  ∧ fst (transcribe_audio (transcribe Demo.backend) Demo.env_ok
           Demo.sample_wav None Demo.w0)
    = Raise (HTTPException 422 "ASR processing error: ASR model not loaded")
  ∧ PyStr.contains "ASR processing error: ASR model not loaded" "not loaded"
    = true.
Proof.
  apply (transcribe_before_load Demo.backend Demo.env_ok Demo.sample_wav None
           Demo.w0 "/tmp/tmpe5f6g7h8.wav" "/tmp/missing.wav").
  - left. reflexivity.
  - reflexivity.
  - repeat split; vm_compute; reflexivity.
Defined.

(** ** Stripped transcripts *)

Lemma lstrip_first (s : string) :
  match PyStr.lstrip s with
  | "" => True
  | String a _ => PyStr.isspace a = false
  end.
Proof.
  induction s as [|a s IH]; simpl; [done|].
  destruct (PyStr.isspace a) eqn:Ha; [exact IH|exact Ha].
Qed.

Lemma rstrip_first (a : ascii) (s : string) :
  PyStr.isspace a = false ->
  PyStr.first (PyStr.rstrip (String a s)) = Some a.
Proof.
  intros Ha. cbn [PyStr.rstrip].
  destruct (PyStr.rstrip s); [by rewrite Ha|reflexivity].
Qed.

Lemma rstrip_last (s : string) (b : ascii) :
  PyStr.last (PyStr.rstrip s) = Some b -> PyStr.isspace b = false.
Proof.
  induction s as [|a s IH]; [discriminate|].
  cbn [PyStr.rstrip].
  destruct (PyStr.rstrip s) as [|c r].
  - destruct (PyStr.isspace a) eqn:Ha; [discriminate|].
    by intros [= <-].
  - exact IH.
Qed.

(** [strip] leaves no white space at either end. *)
Lemma strip_trimmed (s : string) : trimmed (PyStr.strip s) = true.
Proof.
  unfold PyStr.strip, trimmed.
  pose proof (lstrip_first s) as Hl.
  destruct (PyStr.lstrip s) as [|a s'] eqn:Hs; [reflexivity|].
  rewrite (rstrip_first a s' Hl).
  destruct (PyStr.last (PyStr.rstrip (String a s'))) as [b|] eqn:Hb;
    [|reflexivity].
  by rewrite Hl, (rstrip_last _ _ Hb).
Qed.

(** A response that is returned was built from a text the engine
    returned. *)
Lemma transcribe_audio_returns tr env file lang w d w' :
  transcribe_audio tr env file lang w = (Ok d, w') ->
  ∃ path l text,
    passes_validation file = true
    ∧ staging_succeeds env w path
    ∧ tr path (staged_world file path w) = (l, Ok text)
    ∧ dict_get d "transcription" = Some (PStr text).
Proof.
  intros H.
  destruct (passes_validation file) eqn:Hv.
  2:{ destruct (validate_rejects env file w Hv) as [detail Hd].
      rewrite (transcribe_audio_rejected tr env file lang w detail Hd) in H.
      discriminate. }
  destruct (stage env file w) as [[path|e] w2] eqn:Hst.
  2:{ rewrite (transcribe_audio_stage_fails tr env file lang w e w2 Hv Hst)
        in H. discriminate. }
  assert (Hs : staging_succeeds env w path).
  { revert Hst. unfold staging_succeeds, stage, NamedTemporaryFile,
      file_read, file_write; simpl.
    destruct (mkstemp_inner _ _ _) as [name|]; simpl; [|discriminate].
    destruct (create_error env); simpl; [discriminate|].
    destruct (read_error env); simpl; [discriminate|].
    destruct (write_error env); simpl; [discriminate|].
    by intros [= -> _]. }
  destruct (tr path (staged_world file path w)) as [l r] eqn:Htr.
  destruct (transcribe_audio_run tr env file lang w path Hv Hs l r Htr)
    as (evs & Hrun & _).
  rewrite Hrun in H.
  destruct r as [text|e]; [|destruct (is_ASRError e); discriminate].
  injection H as <- _.
  by exists path, l, text.
Qed.

(** C10: a text returned by [transcribe] is the decoded output of the
    model, stripped: it has no white space at either end; hence the same
    holds of the transcription field of every response the handler
    returns. *)
Theorem transcript_is_stripped
    (B : Backend) (audio_path : string) (w : world)
    (l : list (level * string)) (text : string) :
  transcribe B audio_path w = (l, Ok text) ->
  (∃ processor model waveform raw,
     infer B processor model (asr_device w) waveform = Ok raw
     ∧ text = PyStr.strip raw)
  ∧ trimmed text = true
  ∧ (∀ env file lang w0 d w',
       transcribe_audio (transcribe B) env file lang w0 = (Ok d, w') ->
       ∃ t, dict_get d "transcription" = Some (PStr t) ∧ trimmed t = true).
Proof.
  intros H.
  destruct (transcribe_returns B audio_path w l text H)
    as (processor & model & waveform & raw & _ & _ & Hinf & ->).
  split; [by exists processor, model, waveform, raw|].
  split; [apply strip_trimmed|].
  - intros env file lang w0 d w' Hrun.
    destruct (transcribe_audio_returns _ _ _ _ _ _ _ Hrun)
      as (path & l' & t & _ & _ & Htr & Hd).
    exists t. split; [exact Hd|].
    destruct (transcribe_returns B _ _ _ _ Htr)
      as (? & ? & ? & raw' & _ & _ & _ & ->).
    apply strip_trimmed.
Qed.

Lemma transcript_is_stripped_witness :
  (∃ processor model waveform raw,
     infer Demo.backend processor model (asr_device Demo.w1) waveform = Ok raw
     ∧ "habari ya asubuhi" = PyStr.strip raw)
  ∧ trimmed "habari ya asubuhi" = true
  ∧ (∀ env file lang w0 d w',
       transcribe_audio (transcribe Demo.backend) env file lang w0
       = (Ok d, w') ->
       ∃ t, dict_get d "transcription" = Some (PStr t) ∧ trimmed t = true).
Proof.
  apply (transcript_is_stripped Demo.backend "/tmp/tmpa1b2c3d4.wav"
           (set_fs {[ "/tmp/tmpa1b2c3d4.wav" := "RIFF" ]} Demo.w1)
           [(DEBUG, "Raw transcription:   habari ya asubuhi
")] "habari ya asubuhi").
  vm_compute. reflexivity.
Defined.

(** ** Binary64

    A rounded quotient or product is within half a unit in the last place
    of the exact one, which bounds the number of samples that [resample]
    returns. *)

Lemma den_pos x : 0 < Binary64.den x.
Proof.
  destruct x as [m e]; unfold Binary64.den.
  destruct (0 <=? e) eqn:He; [lia|].
  apply Z.leb_gt in He. apply Z.pow_pos_nonneg; lia.
Qed.

Lemma scaled_spec a b e x y :
  0 < b -> Binary64.scaled a b e = (x, y) ->
  0 < y
  /\ forall m,
       x = a * Binary64.den (m, e) /\ m * y = Binary64.num (m, e) * b.
Proof.
  unfold Binary64.scaled, Binary64.num, Binary64.den. intros Hb.
  destruct (0 <=? e) eqn:He; intros [= <- <-].
  - apply Z.leb_le in He. split.
    + apply Z.mul_pos_pos; [lia|apply Z.pow_pos_nonneg; lia].
    + intros m. split; ring.
  - split; [lia|]. intros m. split; ring.
Qed.

Lemma scaled_half a b e x y x0 y0 :
  0 < b ->
  Binary64.scaled a b e = (x0, y0) ->
  Binary64.scaled a b (e - 1) = (x, y) ->
  x * y0 = 2 * x0 * y.
Proof.
  unfold Binary64.scaled. intros Hb.
  destruct (0 <=? e) eqn:He; destruct (0 <=? e - 1) eqn:He1;
    intros [= <- <-] [= <- <-].
  - apply Z.leb_le in He1.
    replace e with (1 + (e - 1)) at 1 by lia.
    rewrite Z.pow_add_r by lia. change (2 ^ 1) with 2. ring.
  - apply Z.leb_le in He. apply Z.leb_gt in He1.
    assert (e = 0) as -> by lia.
    change (2 ^ 0) with 1. change (2 ^ (- (0 - 1))) with 2. ring.
  - apply Z.leb_gt in He. apply Z.leb_le in He1. lia.
  - apply Z.leb_gt in He.
    replace (- (e - 1)) with (1 + - e) by lia.
    rewrite Z.pow_add_r by lia. change (2 ^ 1) with 2. ring.
Qed.

Lemma scaled_start a b x0 y0 :
  0 < a -> 0 < b ->
  Binary64.scaled a b (Z.log2 a - Z.log2 b - 52) = (x0, y0) ->
  2 ^ 51 * y0 <= x0.
Proof.
  intros Ha Hb. unfold Binary64.scaled.
  destruct (Z.log2_spec a Ha) as [Ha1 Ha2].
  destruct (Z.log2_spec b Hb) as [Hb1 Hb2].
  pose proof (Z.log2_nonneg a) as Hla. pose proof (Z.log2_nonneg b) as Hlb.
  set (la := Z.log2 a) in *. set (lb := Z.log2 b) in *.
  destruct (0 <=? la - lb - 52) eqn:He; intros [= <- <-].
  - apply Z.leb_le in He.
    replace la with (lb + 52 + (la - lb - 52)) in Ha1 by lia.
    rewrite !Z.pow_add_r in Ha1 by lia.
    replace (Z.succ lb) with (lb + 1) in Hb2 by lia.
    rewrite Z.pow_add_r in Hb2 by lia. change (2 ^ 1) with 2 in Hb2.
    assert (0 < 2 ^ (la - lb - 52)) by (apply Z.pow_pos_nonneg; lia).
    assert (0 < 2 ^ lb) by (apply Z.pow_pos_nonneg; lia).
    change (2 ^ 52) with (2 ^ 51 * 2) in Ha1.
    nia.
  - apply Z.leb_gt in He.
    assert (Hp : 2 ^ la * 2 ^ (- (la - lb - 52)) = 2 ^ lb * 2 ^ 52).
    { rewrite <- !Z.pow_add_r by lia. f_equal. lia. }
    replace (Z.succ lb) with (lb + 1) in Hb2 by lia.
    rewrite Z.pow_add_r in Hb2 by lia. change (2 ^ 1) with 2 in Hb2.
    assert (0 < 2 ^ (- (la - lb - 52))) by (apply Z.pow_pos_nonneg; lia).
    change (2 ^ 52) with (2 ^ 51 * 2) in Hp.
    nia.
Qed.

Lemma round_spec a b :
  0 < a -> 0 < b ->
  2 ^ 52 <= fst (Binary64.round a b)
  /\ 2 ^ 53 * Z.abs (Binary64.num (Binary64.round a b) * b
                     - a * Binary64.den (Binary64.round a b))
     <= a * Binary64.den (Binary64.round a b).
Proof.
  intros Ha Hb. unfold Binary64.round.
  destruct (a <=? 0) eqn:Hle; [apply Z.leb_le in Hle; lia|clear Hle].
  set (e0 := Z.log2 a - Z.log2 b - 52).
  destruct (Binary64.scaled a b e0) as [x0 y0] eqn:H0.
  pose proof (scaled_start a b x0 y0 Ha Hb H0) as Hstart.
  destruct (scaled_spec a b e0 x0 y0 Hb H0) as [Hy0 _].
  set (e := if x0 / y0 <? 2 ^ 52 then e0 - 1 else e0).
  destruct (Binary64.scaled a b e) as [x y] eqn:Hxy.
  destruct (scaled_spec a b e x y Hb Hxy) as [Hy Hm].
  assert (Hnorm : 2 ^ 52 * y <= x).
  { unfold e in Hxy. destruct (x0 / y0 <? 2 ^ 52) eqn:Hq.
    - pose proof (scaled_half a b e0 x y x0 y0 Hb H0 Hxy) as Hh.
      change (2 ^ 52) with (2 * 2 ^ 51). nia.
    - apply Z.ltb_ge in Hq. rewrite Hxy in H0. injection H0 as <- <-.
      pose proof (Z.mul_div_le x y Hy). nia. }
  pose proof (Z.div_mod x y ltac:(lia)) as Hdm.
  pose proof (Z.mod_pos_bound x y Hy) as Hr.
  assert (Hq : 2 ^ 52 <= x / y) by (apply Z.div_le_lower_bound; lia).
  set (q := x / y) in *. set (r := x mod y) in *.
  set (m := if (y <? 2 * r) || ((2 * r =? y) && Z.odd q) then q + 1 else q).
  destruct (Hm m) as [Hx Hmy]. cbn [fst].
  assert (Hcase : (m = q /\ 2 * r <= y) \/ (m = q + 1 /\ y <= 2 * r)).
  { unfold m. destruct (y <? 2 * r) eqn:H1; cbn [orb andb].
    - apply Z.ltb_lt in H1. right. lia.
    - apply Z.ltb_ge in H1. destruct (2 * r =? y) eqn:H2; cbn [orb andb].
      + apply Z.eqb_eq in H2. destruct (Z.odd q); [right|left]; lia.
      + left. lia. }
  split; [lia|].
  rewrite <- Hx, <- Hmy.
  destruct Hcase as [[-> Hc] | [-> Hc]].
  - replace (q * y - x) with (- r) by lia. rewrite Z.abs_opp, Z.abs_eq by lia.
    change (2 ^ 53) with (2 * 2 ^ 52). nia.
  - replace ((q + 1) * y - x) with (y - r) by lia. rewrite Z.abs_eq by lia.
    change (2 ^ 53) with (2 * 2 ^ 52). nia.
Qed.

Lemma round_exp a b :
  0 < a -> snd (Binary64.round a b) <= Z.log2 a - Z.log2 b - 52.
Proof.
  intros Ha. unfold Binary64.round.
  destruct (a <=? 0) eqn:Hle; [apply Z.leb_le in Hle; lia|clear Hle].
  set (e0 := Z.log2 a - Z.log2 b - 52).
  destruct (Binary64.scaled a b e0) as [x0 y0].
  set (e := if x0 / y0 <? 2 ^ 52 then e0 - 1 else e0).
  assert (e <= e0) by (unfold e; destruct (x0 / y0 <? 2 ^ 52); lia).
  destruct (Binary64.scaled a b e) as [x y]. exact H.
Qed.

Lemma round_scale a b c :
  0 < a -> 0 < b -> 0 < c ->
  2 ^ 52 <= fst (Binary64.round (a * c) (b * c))
  /\ 2 ^ 53 * Z.abs (Binary64.num (Binary64.round (a * c) (b * c)) * b
                     - a * Binary64.den (Binary64.round (a * c) (b * c)))
     <= a * Binary64.den (Binary64.round (a * c) (b * c)).
Proof.
  intros Ha Hb Hc.
  destruct (round_spec (a * c) (b * c)) as [H1 H2]; [nia|nia|].
  split; [exact H1|].
  set (R := Binary64.round (a * c) (b * c)) in *.
  replace (Binary64.num R * (b * c) - a * c * Binary64.den R)
    with ((Binary64.num R * b - a * Binary64.den R) * c) in H2 by ring.
  rewrite Z.abs_mul, (Z.abs_eq c) in H2 by lia.
  pose proof (Z.abs_nonneg (Binary64.num R * b - a * Binary64.den R)).
  pose proof (den_pos R). nia.
Qed.

(** [float(n)] is [n] for a positive integer below [2^53]. *)
Lemma of_Z_exact n :
  0 < n < 2 ^ 53 -> exists k, 0 <= k /\ Binary64.of_Z n = (n * 2 ^ k, - k).
Proof.
  intros Hn. unfold Binary64.of_Z.
  pose proof (round_exp n 1 ltac:(lia)) as He.
  change (Z.log2 1) with 0 in He.
  assert (Z.log2 n < 53) by (apply Z.log2_lt_pow2; lia).
  revert He. unfold Binary64.round.
  destruct (n <=? 0) eqn:Hle; [apply Z.leb_le in Hle; lia|clear Hle].
  change (Z.log2 1) with 0.
  set (e0 := Z.log2 n - 0 - 52).
  destruct (Binary64.scaled n 1 e0) as [x0 y0].
  set (e := if x0 / y0 <? 2 ^ 52 then e0 - 1 else e0).
  destruct (Binary64.scaled n 1 e) as [x y] eqn:Hxy. cbn [snd]. intros He.
  assert (Hx : x = n * 2 ^ (- e) /\ y = 1).
  { unfold Binary64.scaled in Hxy. destruct (0 <=? e) eqn:H0.
    - apply Z.leb_le in H0. assert (e = 0) as Heq by lia.
      rewrite Heq in Hxy |- *. injection Hxy as <- <-.
      change (2 ^ (- 0)) with 1. change (2 ^ 0) with 1. lia.
    - injection Hxy as <- <-. split; reflexivity. }
  destruct Hx as [-> ->].
  rewrite Z.div_1_r, Z.mod_1_r.
  change (1 <? 2 * 0) with false. change (2 * 0 =? 1) with false.
  cbn [orb andb].
  exists (- e). split; [lia|]. f_equal. lia.
Qed.

(** The quotient of two exact integers is within half an ulp of the
    true quotient. *)
Lemma div_spec n1 n2 k1 k2 :
  0 < n1 -> 0 < n2 -> 0 <= k1 -> 0 <= k2 ->
  let R := Binary64.div (n1 * 2 ^ k1, - k1) (n2 * 2 ^ k2, - k2) in
  2 ^ 52 <= fst R
  /\ 2 ^ 53 * Z.abs (Binary64.num R * n2 - n1 * Binary64.den R)
     <= n1 * Binary64.den R.
Proof.
  intros H1 H2 Hk1 Hk2. unfold Binary64.div.
  destruct (0 <=? - k1 - - k2) eqn:Hs.
  - apply Z.leb_le in Hs.
    replace (n1 * 2 ^ k1 * 2 ^ (- k1 - - k2)) with (n1 * 2 ^ k2).
    + apply round_scale; [lia|lia|apply Z.pow_pos_nonneg; lia].
    + rewrite <- Z.mul_assoc, <- Z.pow_add_r by lia. do 2 f_equal. lia.
  - apply Z.leb_gt in Hs.
    replace (n2 * 2 ^ k2 * 2 ^ (- k2 - - k1)) with (n2 * 2 ^ k1).
    + apply round_scale; [lia|lia|apply Z.pow_pos_nonneg; lia].
    + rewrite <- Z.mul_assoc, <- Z.pow_add_r by lia. do 2 f_equal. lia.
Qed.

(** The product of an exact integer and a double is within half an ulp
    of the true product. *)
Lemma mul_spec n k R :
  0 < n -> 0 <= k -> 0 < fst R ->
  let P := Binary64.mul (n * 2 ^ k, - k) R in
  2 ^ 53 * Z.abs (Binary64.num P * Binary64.den R
                  - n * Binary64.num R * Binary64.den P)
  <= n * Binary64.num R * Binary64.den P.
Proof.
  intros Hn Hk. destruct R as [mR eR]. cbn [fst]. intros HmR.
  unfold Binary64.mul.
  assert (Hfrac : exists c, 0 < c /\
    (if 0 <=? - k + eR
     then Binary64.round (n * 2 ^ k * mR * 2 ^ (- k + eR)) 1
     else Binary64.round (n * 2 ^ k * mR) (2 ^ (- (- k + eR))))
    = Binary64.round (n * Binary64.num (mR, eR) * c)
        (Binary64.den (mR, eR) * c)).
  { unfold Binary64.num, Binary64.den. destruct (0 <=? - k + eR) eqn:Hs.
    - apply Z.leb_le in Hs.
      assert (He : (0 <=? eR) = true) by (apply Z.leb_le; lia).
      rewrite He. exists 1. split; [lia|]. apply f_equal2; [|reflexivity].
      replace (2 ^ eR) with (2 ^ k * 2 ^ (- k + eR)); [ring|].
      rewrite <- Z.pow_add_r by lia. f_equal. lia.
    - apply Z.leb_gt in Hs. destruct (0 <=? eR) eqn:He.
      + apply Z.leb_le in He. exists (2 ^ (- (- k + eR))).
        split; [apply Z.pow_pos_nonneg; lia|]. apply f_equal2; [|ring].
        replace (2 ^ k) with (2 ^ eR * 2 ^ (- (- k + eR))); [ring|].
        rewrite <- Z.pow_add_r by lia. f_equal. lia.
      + apply Z.leb_gt in He. exists (2 ^ k).
        split; [apply Z.pow_pos_nonneg; lia|]. apply f_equal2; [ring|].
        rewrite <- Z.pow_add_r by lia. f_equal. lia. }
  destruct Hfrac as (c & Hc & ->).
  assert (0 < Binary64.num (mR, eR)).
  { unfold Binary64.num. destruct (0 <=? eR) eqn:He; [|lia].
    apply Z.leb_le in He. apply Z.mul_pos_pos; [lia|].
    apply Z.pow_pos_nonneg; lia. }
  pose proof (den_pos (mR, eR)).
  apply (round_scale (n * Binary64.num (mR, eR)) (Binary64.den (mR, eR)) c);
    [nia|lia|lia].
Qed.

(** [int(np.ceil(x))] against a fraction. *)
Lemma ceil_le x K :
  Binary64.num x <= K * Binary64.den x -> Binary64.ceil x <= K.
Proof.
  destruct x as [m e]. unfold Binary64.num, Binary64.den, Binary64.ceil.
  destruct (0 <=? e) eqn:He; [lia|]. apply Z.leb_gt in He. intros H.
  assert (0 < 2 ^ (- e)) by (apply Z.pow_pos_nonneg; lia).
  assert (- K <= - m / 2 ^ (- e)); [|lia].
  apply Z.div_le_lower_bound; lia.
Qed.

Lemma ceil_ge x K :
  (K - 1) * Binary64.den x < Binary64.num x -> K <= Binary64.ceil x.
Proof.
  destruct x as [m e]. unfold Binary64.num, Binary64.den, Binary64.ceil.
  destruct (0 <=? e) eqn:He; [lia|]. apply Z.leb_gt in He. intros H.
  assert (0 < 2 ^ (- e)) by (apply Z.pow_pos_nonneg; lia).
  assert (- m / 2 ^ (- e) < - K + 1); [|lia].
  apply Z.div_lt_upper_bound; lia.
Qed.

(** The product that [resample] rounds up, against the exact
    [n * 16000 / r]: two roundings apart. *)
Lemma resample_product n r :
  0 < n < 2 ^ 53 -> 0 < r < 2 ^ 53 ->
  let P := Binary64.mul (Binary64.of_Z n)
             (Binary64.div (Binary64.of_Z 16000) (Binary64.of_Z r)) in
  2 ^ 53 * 2 ^ 53 * (Binary64.num P * r)
  <= (2 ^ 53 + 1) * (2 ^ 53 + 1) * (n * 16000 * Binary64.den P)
  /\ (2 ^ 53 - 1) * (2 ^ 53 - 1) * (n * 16000 * Binary64.den P)
     <= 2 ^ 53 * 2 ^ 53 * (Binary64.num P * r).
Proof.
  intros Hn Hr.
  destruct (of_Z_exact n Hn) as (kn & Hkn & ->).
  destruct (of_Z_exact r Hr) as (kr & Hkr & ->).
  destruct (of_Z_exact 16000 ltac:(lia)) as (kt & Hkt & ->).
  destruct (div_spec 16000 r kt kr) as [HR1 HR2]; [lia..|].
  set (R := Binary64.div (16000 * 2 ^ kt, - kt) (r * 2 ^ kr, - kr)) in *.
  pose proof (mul_spec n kn R ltac:(lia) Hkn ltac:(lia)) as HP.
  set (P := Binary64.mul (n * 2 ^ kn, - kn) R) in *. cbv zeta in HP |- *.
  pose proof (den_pos R) as HdR. pose proof (den_pos P) as HdP.
  set (U := 2 ^ 53) in *. assert (HU : 0 < U) by (unfold U; lia).
  set (nR := Binary64.num R) in *. set (dR := Binary64.den R) in *.
  set (nP := Binary64.num P) in *. set (dP := Binary64.den P) in *.
  assert (HR : (U - 1) * (16000 * dR) <= U * (nR * r)
               /\ U * (nR * r) <= (U + 1) * (16000 * dR)) by lia.
  assert (HnR : 0 < nR) by nia.
  assert (HPb : (U - 1) * (n * nR * dP) <= U * (nP * dR)
                /\ U * (nP * dR) <= (U + 1) * (n * nR * dP)) by lia.
  clear HR2 HP. destruct HR as [HRl HRu]. destruct HPb as [HPl HPu].
  split.
  - (* U² nP r dR ≤ (U+1) U n nR dP r ≤ (U+1)² n 16000 dR dP *)
    assert (H1 : U * (U * (nP * dR)) * r <= U * ((U + 1) * (n * nR * dP)) * r).
    { apply Z.mul_le_mono_nonneg_r; [lia|].
      apply Z.mul_le_mono_nonneg_l; lia. }
    assert (H2 : (U + 1) * (n * dP) * (U * (nR * r))
                 <= (U + 1) * (n * dP) * ((U + 1) * (16000 * dR))).
    { apply Z.mul_le_mono_nonneg_l; [nia|lia]. }
    assert (H3 : dR * (U * U * (nP * r))
                 <= dR * ((U + 1) * (U + 1) * (n * 16000 * dP))).
    { etransitivity; [|etransitivity; [exact H1|]].
      - apply Z.eq_le_incl. ring.
      - etransitivity; [|etransitivity; [exact H2|]];
          apply Z.eq_le_incl; ring. }
    apply (Z.mul_le_mono_pos_l _ _ dR HdR). exact H3.
  - assert (H1 : U * ((U - 1) * (n * nR * dP)) * r <= U * (U * (nP * dR)) * r).
    { apply Z.mul_le_mono_nonneg_r; [lia|].
      apply Z.mul_le_mono_nonneg_l; lia. }
    assert (H2 : (U - 1) * (n * dP) * ((U - 1) * (16000 * dR))
                 <= (U - 1) * (n * dP) * (U * (nR * r))).
    { apply Z.mul_le_mono_nonneg_l; [|lia].
      apply Z.mul_nonneg_nonneg; [unfold U; lia|nia]. }
    assert (H3 : dR * ((U - 1) * (U - 1) * (n * 16000 * dP))
                 <= dR * (U * U * (nP * r))).
    { etransitivity; [|etransitivity; [exact H2|]].
      - apply Z.eq_le_incl. ring.
      - etransitivity; [|etransitivity; [exact H1|]];
          apply Z.eq_le_incl; ring. }
    apply (Z.mul_le_mono_pos_l _ _ dR HdR). exact H3.
Qed.

(** Thirty seconds or less come out as at most 480001 samples. *)
Lemma resample_length_le (n : nat) (r : Z) :
  0 < r -> 30 * r < 2 ^ 53 -> Z.of_nat n <= 30 * r ->
  Z.of_nat (resample_length n r 16000) <= 480001.
Proof.
  intros Hr Hr53 Hn. unfold resample_length.
  destruct (Z.eq_dec (Z.of_nat n) 0) as [H0|H0].
  { rewrite H0.
    destruct (Binary64.div (Binary64.of_Z 16000) (Binary64.of_Z r))
      as [mR eR].
    change (Binary64.of_Z 0) with (0, 0). unfold Binary64.mul.
    change (0 * mR) with 0. change (0 * 2 ^ (0 + eR)) with 0.
    destruct (0 <=? 0 + eR); change (Binary64.round 0 1) with (0, 0);
      [simpl; lia|].
    unfold Binary64.round. change (0 <=? 0) with true. cbv iota.
    simpl. lia. }
  destruct (resample_product (Z.of_nat n) r) as [Hu _]; [lia|lia|].
  set (P := Binary64.mul _ _) in *. cbv zeta in Hu.
  pose proof (den_pos P) as HdP.
  assert (Binary64.ceil P <= 480001); [|lia].
  apply ceil_le.
  set (nP := Binary64.num P) in *. set (dP := Binary64.den P) in *.
  assert (H1 : (2 ^ 53 + 1) * (2 ^ 53 + 1) * (Z.of_nat n * 16000 * dP)
               <= (2 ^ 53 + 1) * (2 ^ 53 + 1) * (30 * r * 16000 * dP)).
  { apply Z.mul_le_mono_nonneg_l; [lia|].
    apply Z.mul_le_mono_nonneg_r; [lia|].
    apply Z.mul_le_mono_nonneg_r; lia. }
  assert (H2 : (2 ^ 53 + 1) * (2 ^ 53 + 1) * 480000
               <= 2 ^ 53 * 2 ^ 53 * 480001) by (vm_compute; discriminate).
  assert (H3 : r * (2 ^ 53 * 2 ^ 53 * nP)
               <= r * (2 ^ 53 * 2 ^ 53 * (480001 * dP))).
  { etransitivity; [apply Z.eq_le_incl; ring_simplify; reflexivity|].
    etransitivity; [|apply Z.eq_le_incl; ring_simplify; reflexivity].
    assert (H4 : (2 ^ 53 + 1) * (2 ^ 53 + 1) * 480000 * (r * dP)
                 <= 2 ^ 53 * 2 ^ 53 * 480001 * (r * dP)).
    { apply Z.mul_le_mono_nonneg_r; [nia|exact H2]. }
    lia. }
  apply Z.mul_le_mono_pos_l in H3; [|lia].
  apply Z.mul_le_mono_pos_l in H3; [exact H3|lia].
Qed.

(** Thirty seconds come out as at least 480000 samples. *)
Lemma resample_length_ge (n : nat) (r : Z) :
  0 < r -> 30 * r < 2 ^ 53 -> Z.of_nat n = 30 * r ->
  480000 <= Z.of_nat (resample_length n r 16000).
Proof.
  intros Hr Hr53 Hn. unfold resample_length.
  destruct (resample_product (Z.of_nat n) r) as [_ Hl]; [lia|lia|].
  set (P := Binary64.mul _ _) in *. cbv zeta in Hl.
  pose proof (den_pos P) as HdP.
  assert (480000 <= Binary64.ceil P); [|lia].
  apply ceil_ge.
  set (nP := Binary64.num P) in *. set (dP := Binary64.den P) in *.
  rewrite Hn in Hl.
  assert (H2 : 2 ^ 53 * 2 ^ 53 * 479999 + 1
               <= (2 ^ 53 - 1) * (2 ^ 53 - 1) * 480000)
    by (vm_compute; discriminate).
  assert (H4 : (2 ^ 53 * 2 ^ 53 * 479999 + 1) * (r * dP)
               <= (2 ^ 53 - 1) * (2 ^ 53 - 1) * 480000 * (r * dP)).
  { apply Z.mul_le_mono_nonneg_r; [nia|exact H2]. }
  assert (H3 : r * (2 ^ 53 * 2 ^ 53 * ((480000 - 1) * dP))
               < r * (2 ^ 53 * 2 ^ 53 * nP)).
  { assert (0 < r * dP) by nia. lia. }
  apply Z.mul_lt_mono_pos_l in H3; [|lia].
  apply Z.mul_lt_mono_pos_l in H3; [exact H3|lia].
Qed.

(** ** Preprocessing *)

Section Preprocessing.

Variable B : Backend.

Lemma resample_row_length (y : list (sample B)) (orig_sr target_sr : Z) :
  length (resample_row B y orig_sr target_sr)
  = resample_length (length y) orig_sr target_sr.
Proof. unfold resample_row. by rewrite length_map, length_seq. Qed.

Lemma take_min (y : list (sample B)) (k : nat) :
  take k y = take (Nat.min (length y) k) y.
Proof.
  destruct (Nat.le_ge_cases k (length y)) as [H|H].
  - by rewrite Nat.min_r.
  - rewrite Nat.min_l by done. by rewrite !take_ge.
Qed.

(** A frame of the first [k] is the same in the file and in what was read
    of it. *)
Lemma frame_of_read (chans : list (list (sample B))) (k i : nat) :
  (i < k)%nat ->
  omap (fun row => row !! i) (map (take k) chans)
  = omap (fun ch => ch !! i) chans.
Proof.
  intros Hi. induction chans as [|ch chans IH]; [reflexivity|].
  simpl. rewrite (lookup_take_lt ch k i Hi).
  destruct (ch !! i); [f_equal|]; exact IH.
Qed.

(** Reading at most [k] frames and mixing down: a single channel is cut,
    several channels are averaged frame by frame over the first
    [min k n] frames, [n] being the number of frames of the file. *)
Lemma to_mono_soundfile_read (snd : SoundFile (sample B)) (k : Z) :
  to_mono B (soundfile_read B snd k)
  = Arr1 match channels snd with
         | [y] => take (Z.to_nat k) y
         | chans =>
             map (fun i => mean B (omap (fun ch => ch !! i) chans))
                 (seq 0 (Nat.min (length (hd [] chans)) (Z.to_nat k)))
         end.
Proof.
  unfold soundfile_read.
  destruct (channels snd) as [|y1 [|y2 rows]]; [reflexivity..|].
  cbn [map to_mono hd]. rewrite length_take, Nat.min_comm. f_equal.
  apply map_ext_in. intros i [_ Hi]%in_seq.
  f_equal.
  change (take (Z.to_nat k) y1 :: take (Z.to_nat k) y2
          :: map (take (Z.to_nat k)) rows)
    with (map (take (Z.to_nat k)) (y1 :: y2 :: rows)).
  apply frame_of_read. lia.
Qed.

(** C6: for a file that decodes, [preprocess_audio] asks [librosa.load]
    for 16 kHz, mono and 30 seconds, and hands on a batch of one
    single-channel waveform made as follows.  Of the [n] frames of the
    file, at its native rate [r], only the first [min n (30 * r)] are
    used: thirty seconds of audio when the file is longer, the whole file
    otherwise.  Several channels are mixed into one, each frame becoming
    the mean of its samples over all the channels.  Unless the file is at
    16 kHz already, the result is resampled from [r] to 16000 Hz by the
    filter of the library, into as many samples as the library computes
    for that change of rate.  For every rate a double holds exactly, what
    is handed on has at most 480001 samples, and 480000 or 480001 when
    the file is thirty seconds long or longer: the library rounds the
    number of samples in binary64, which can add one to the 480000 of
    thirty seconds at 16 kHz. *)
Theorem preprocess_audio_shape
    (audio_path : string) (w : world) (bytes : string)
    (snd : SoundFile (sample B)) :
  fs w !! audio_path = Some bytes ->
  sf_read B bytes = Ok snd ->
  let r := Z.pos (samplerate snd) in
  let n := length (hd [] (channels snd)) in
  let used := Nat.min n (Z.to_nat (30 * r)) in
  let mixed :=
    match channels snd with
    | [y] => take used y
    | chans =>
        map (fun i => mean B (omap (fun ch => ch !! i) chans)) (seq 0 used)
    end in
  let ys :=
    if r =? 16000 then mixed
    else map (resample_at B mixed r 16000)
             (seq 0 (resample_length used r 16000)) in
  librosa_load B audio_path SAMPLE_RATE true MAX_INPUT_LENGTH w
  = ([], Ok (Arr1 ys, 16000))
  ∧ preprocess_audio B audio_path w = ([], Ok (T2 [ys]))
  ∧ length mixed = used
  ∧ (Z.of_nat used <= 30 * r)
  ∧ (30 * r <= Z.of_nat n -> Z.of_nat used = 30 * r)
  ∧ (Z.of_nat n <= 30 * r -> used = n)
  ∧ length ys
    = (if r =? 16000 then used else resample_length used r 16000)
  ∧ (30 * r < 2 ^ 53 -> Z.of_nat (length ys) <= 480001)
  ∧ (30 * r < 2 ^ 53 -> 30 * r <= Z.of_nat n ->
     480000 <= Z.of_nat (length ys)).
Proof.
  intros Hfile Hdec r n used mixed ys.
  assert (Hmixed :
    to_mono B (soundfile_read B snd (MAX_INPUT_LENGTH * r)) = Arr1 mixed).
  { rewrite to_mono_soundfile_read. unfold mixed, used, n, MAX_INPUT_LENGTH.
    destruct (channels snd) as [|y1 [|y2 rows]]; cbn [hd]; [done| |done].
    f_equal. apply take_min. }
  assert (Hlen : length mixed = used).
  { unfold mixed, used, n. destruct (channels snd) as [|y1 [|y2 rows]].
    - by rewrite length_map, length_seq.
    - rewrite length_take. cbn [hd]. lia.
    - by rewrite length_map, length_seq. }
  assert (Hys : resample B (Arr1 mixed) r SAMPLE_RATE = Arr1 ys).
  { unfold resample, ys, SAMPLE_RATE, resample_row. rewrite Hlen.
    by destruct (r =? 16000). }
  assert (Hload :
    librosa_load B audio_path SAMPLE_RATE true MAX_INPUT_LENGTH w
    = ([], Ok (Arr1 ys, 16000))).
  { unfold librosa_load. rewrite Hfile, Hdec. fold r.
    by rewrite Hmixed, Hys. }
  split; [exact Hload|]. split.
  { unfold preprocess_audio; simpl. by rewrite Hload. }
  split; [exact Hlen|].
  assert (Hr : 0 < r) by (unfold r; lia).
  split; [unfold used; lia|]. split; [unfold used; lia|].
  split; [unfold used; lia|].
  assert (Hys_len : length ys
    = (if r =? 16000 then used else resample_length used r 16000)).
  { unfold ys. destruct (r =? 16000); [exact Hlen|].
    by rewrite length_map, length_seq. }
  split; [exact Hys_len|]. rewrite Hys_len.
  assert (Hused : Z.of_nat used <= 30 * r) by (unfold used; lia).
  split.
  - intros H53. destruct (r =? 16000) eqn:Hrate.
    + apply Z.eqb_eq in Hrate. lia.
    + by apply resample_length_le.
  - intros H53 Hlong.
    assert (Hfull : Z.of_nat used = 30 * r) by (unfold used; lia).
    destruct (r =? 16000) eqn:Hrate.
    + apply Z.eqb_eq in Hrate. lia.
    + by apply resample_length_ge.
Qed.

End Preprocessing.

Lemma preprocess_audio_shape_witness :
  librosa_load Demo.backend "/tmp/tmpa1b2c3d4.wav" SAMPLE_RATE true
    MAX_INPUT_LENGTH (set_fs {[ "/tmp/tmpa1b2c3d4.wav" := "RIFF" ]} Demo.w1)
  = ([], Ok (Arr1 [20; 20; 30; 30; 40; 40; 50; 50], 16000))
  ∧ preprocess_audio Demo.backend "/tmp/tmpa1b2c3d4.wav"
      (set_fs {[ "/tmp/tmpa1b2c3d4.wav" := "RIFF" ]} Demo.w1)
    = ([], Ok (T2 [[20; 20; 30; 30; 40; 40; 50; 50]])).
Proof.
  pose proof (preprocess_audio_shape Demo.backend "/tmp/tmpa1b2c3d4.wav"
                (set_fs {[ "/tmp/tmpa1b2c3d4.wav" := "RIFF" ]} Demo.w1) "RIFF"
                {| samplerate := 8000%positive;
                   channels := [[10; 20; 30; 40]; [30; 40; 50; 60]] |})
    as H.
  destruct H as (H1 & H2 & _).
  - vm_compute. reflexivity.
  - reflexivity.
  - split; [exact H1|exact H2].
Defined.

(** ** Health *)





(** * Further properties of [asr.py] *)

(** ** The first [try] block in full *)

Lemma stage_returns env file w path w' :
  stage env file w = (Ok path, w') -> staging_succeeds env w path.
Proof.
  unfold staging_succeeds, stage, NamedTemporaryFile, file_read, file_write;
    simpl.
  destruct (mkstemp_inner _ _ _) as [name|]; simpl; [|discriminate].
  destruct (create_error env); simpl; [discriminate|].
  destruct (read_error env); simpl; [discriminate|].
  destruct (write_error env); simpl; [discriminate|].
  by intros [= -> _].
Qed.

(** When no file can be created the world only gains the log line. *)
Lemma stage_no_file (env : OsEnv) (file : UploadFile) (w : world) :
  mkstemp_inner (temp_names env) ".wav" (fs w) = None
  ∨ (∃ msg, create_error env = Some msg) ->
  ∃ msg,
    stage env file w
    = (Raise (HTTPException 500 ("Failed to save uploaded file: " +:+ msg)),
       add_events
         [EvLog ERROR ("Failed to save uploaded file: " +:+ msg)] w).
Proof.
  unfold stage, NamedTemporaryFile; simpl.
  destruct (mkstemp_inner _ _ _) as [name|]; simpl.
  - intros [Hn | [msg Hc]]; [discriminate|]. rewrite Hc; simpl.
    by exists msg.
  - intros _. by eexists.
Qed.

(** When the file is created and the read or the write fails, the world
    gains the file with what reached it, its creation and the log line. *)
Lemma stage_after_create (env : OsEnv) (file : UploadFile) (w : world)
    (path : string) :
  mkstemp_inner (temp_names env) ".wav" (fs w) = Some path ->
  create_error env = None ->
  (∃ msg, read_error env = Some msg) ∨ (∃ msg, write_error env = Some msg) ->
  ∃ msg,
    stage env file w
    = (Raise (HTTPException 500 ("Failed to save uploaded file: " +:+ msg)),
       add_events
         [EvCreate path;
          EvLog ERROR ("Failed to save uploaded file: " +:+ msg)]
         (set_fs (<[path := left_in_file env file]> (fs w)) w)).
Proof.
  intros Hname Hc H.
  unfold stage, NamedTemporaryFile, file_read, file_write, left_in_file;
    simpl.
  rewrite Hname, Hc; simpl.
  destruct (read_error env) as [msg|] eqn:Hr; simpl.
  - exists msg. by rewrite add_events_add.
  - destruct H as [[msg H] | [msg H]]; [discriminate|].
    rewrite H; simpl. exists msg.
    unfold add_events, set_fs; simpl.
    by rewrite insert_insert_eq, <- app_assoc.
Qed.

(** The three ways the first [try] block ends. *)
Lemma stage_cases (env : OsEnv) (w : world) :
  (∃ path, staging_succeeds env w path)
  ∨ (mkstemp_inner (temp_names env) ".wav" (fs w) = None
     ∨ (∃ msg, create_error env = Some msg))
  ∨ (∃ path,
       mkstemp_inner (temp_names env) ".wav" (fs w) = Some path
       ∧ create_error env = None
       ∧ ((∃ msg, read_error env = Some msg)
          ∨ (∃ msg, write_error env = Some msg))).
Proof.
  unfold staging_succeeds.
  destruct (mkstemp_inner _ _ _) as [path|]; [|by right; left; left].
  destruct (create_error env) as [msg|]; [by right; left; right; exists msg|].
  destruct (read_error env) as [msg|].
  { right; right. exists path. repeat split. left. by exists msg. }
  destruct (write_error env) as [msg|].
  { right; right. exists path. repeat split. right. by exists msg. }
  left. by exists path.
Qed.

(** ** A staged request, event by event *)

Lemma transcribe_audio_run_events tr env file lang w path l r :
  passes_validation file = true ->
  staging_succeeds env w path ->
  tr path (staged_world file path w) = (l, r) ->
  snd (transcribe_audio tr env file lang w)
  = match unlink_error env with
    | None =>
        add_events
          ((map log_event l
            ++ match r with Ok _ => [] | Raise e => [failure_log e] end)
           ++ [EvUnlink path])
          (set_fs (fs w) (staged_world file path w))
    | Some msg =>
        add_events
          ((map log_event l
            ++ match r with Ok _ => [] | Raise e => [failure_log e] end)
           ++ [EvLog WARNING ("Failed to delete temporary file: " +:+ msg)])
          (staged_world file path w)
    end.
Proof.
  intros Hv Hs Htr.
  rewrite (transcribe_audio_staged tr env file lang w path Hv Hs).
  unfold try_finally. rewrite process_spec.
  rewrite add_events_add; simpl. fold (staged_world file path w).
  rewrite Htr.
  assert (Hfree : fs w !! path = None).
  { destruct Hs as [Hname _]. exact (mkstemp_inner_fresh _ _ _ _ Hname). }
  assert (Hcl : ∀ evs,
    cleanup env path (add_events evs (staged_world file path w))
    = (Ok tt,
       match unlink_error env with
       | None => add_events (evs ++ [EvUnlink path])
                   (set_fs (fs w) (staged_world file path w))
       | Some msg =>
           add_events
             (evs ++ [EvLog WARNING
                        ("Failed to delete temporary file: " +:+ msg)])
             (staged_world file path w)
       end)).
  { intros evs. rewrite cleanup_spec.
    replace (fs (add_events evs (staged_world file path w)) !! path)
      with (Some (body file)) by (symmetry; apply lookup_insert_eq).
    destruct (unlink_error env) as [msg|].
    - by rewrite add_events_add.
    - unfold add_events, set_fs, staged_world; simpl.
      rewrite (delete_insert_id _ _ _ Hfree).
      by rewrite <- !app_assoc. }
  destruct r as [t|e]; [|unfold failure_log; destruct (is_ASRError e)];
    rewrite Hcl; simpl; by rewrite ?app_nil_r.
Qed.

(** ** What a request changes *)

(** A request leaves the globals alone, appends to the trace, and leaves
    the file system as it was or with one more file. *)
Lemma transcribe_audio_world tr env file lang w :
  ∃ f evs,
    snd (transcribe_audio tr env file lang w) = add_events evs (set_fs f w)
    ∧ (f = fs w
       ∨ ∃ path content, fs w !! path = None ∧ f = <[path := content]> (fs w)).
Proof.
  assert (Hid : w = add_events [] (set_fs (fs w) w)).
  { destruct w. unfold add_events, set_fs; simpl. by rewrite app_nil_r. }
  destruct (passes_validation file) eqn:Hv.
  2:{ destruct (validate_rejects env file w Hv) as [detail Hd].
      rewrite (transcribe_audio_rejected tr env file lang w detail Hd); simpl.
      exists (fs w), []. split; [exact Hid|by left]. }
  destruct (stage_cases env w) as [[path Hs] | [Hno | (path & Hn & Hc & Hrw)]].
  - assert (Hfree : fs w !! path = None).
    { destruct Hs as [Hname _]. exact (mkstemp_inner_fresh _ _ _ _ Hname). }
    destruct (tr path (staged_world file path w)) as [l r] eqn:Htr.
    rewrite (transcribe_audio_run_events tr env file lang w path l r Hv Hs Htr).
    destruct (unlink_error env) as [msg|].
    + exists (<[path := body file]> (fs w)). eexists. split.
      * unfold staged_world. rewrite add_events_add. reflexivity.
      * right. by exists path, (body file).
    + exists (fs w). eexists. split; [|by left].
      unfold staged_world, add_events, set_fs; simpl.
      rewrite <- app_assoc. reflexivity.
  - destruct (stage_no_file env file w Hno) as [msg Hst].
    rewrite (transcribe_audio_stage_fails tr env file lang w _ _ Hv Hst); simpl.
    exists (fs w). eexists. split; [|by left].
    rewrite Hid at 1. rewrite add_events_add. reflexivity.
  - destruct (stage_after_create env file w path Hn Hc Hrw) as [msg Hst].
    rewrite (transcribe_audio_stage_fails tr env file lang w _ _ Hv Hst); simpl.
    exists (<[path := left_in_file env file]> (fs w)). eexists.
    split; [reflexivity|].
    right. exists path, (left_in_file env file). split; [|reflexivity].
    exact (mkstemp_inner_fresh _ _ _ _ Hn).
Qed.

(** Membership in a list of numbers, by computation. *)
Ltac in_list := apply list_elem_of_In; simpl; tauto.
Ltac not_in_list H :=
  apply list_elem_of_In in H; simpl in H; exfalso; intuition discriminate.

(** X1: whatever the engine and the system calls return, and whichever
    subclass of [Exception] they raise, the handler ends with a returned
    dictionary or with an [HTTPException] whose status is 400, 422 or
    500.  The status is 400 exactly when the upload fails validation, and
    a 200 or a 422 is only given once the upload has been staged. *)
Theorem response_status
    (tr : engine) (env : OsEnv) (file : UploadFile) (lang : option string)
    (w : world) :
  ((∃ d, fst (transcribe_audio tr env file lang w) = Ok d)
   ∨ (∃ c detail,
        fst (transcribe_audio tr env file lang w)
        = Raise (HTTPException c detail)
        ∧ c ∈ [400; 422; 500]))
  ∧ (http_status (fst (transcribe_audio tr env file lang w)) = 400
     ↔ passes_validation file = false)
  ∧ (http_status (fst (transcribe_audio tr env file lang w)) ∈ [200; 422]
     -> ∃ path, staging_succeeds env w path).
Proof.
  destruct (passes_validation file) eqn:Hv.
  2:{ destruct (validate_rejects env file w Hv) as [detail Hd].
      rewrite (transcribe_audio_rejected tr env file lang w detail Hd); simpl.
      split; [|split; [done|]].
      - right. exists 400, detail. split; [done|in_list].
      - intros H. by not_in_list H. }
  destruct (stage_cases env w) as [[path Hs] | [Hno | (path & Hn & Hc & Hrw)]].
  - destruct (tr path (staged_world file path w)) as [l r] eqn:Htr.
    destruct (transcribe_audio_run tr env file lang w path Hv Hs l r Htr)
      as (evs & -> & _).
    cbn [fst].
    destruct r as [t|e]; [|destruct (is_ASRError e)]; simpl.
    + split; [left; by eexists|]. split; [done|]. intros _. by exists path.
    + split; [right; do 2 eexists; split; [done|in_list]|].
      split; [done|]. intros _. by exists path.
    + split; [right; do 2 eexists; split; [done|in_list]|].
      split; [done|]. intros _. by exists path.
  - destruct (stage_no_file env file w Hno) as [msg Hst].
    rewrite (transcribe_audio_stage_fails tr env file lang w _ _ Hv Hst); simpl.
    split; [right; do 2 eexists; split; [done|in_list]|].
    split; [done|]. intros H. by not_in_list H.
  - destruct (stage_after_create env file w path Hn Hc Hrw) as [msg Hst].
    rewrite (transcribe_audio_stage_fails tr env file lang w _ _ Hv Hst); simpl.
    split; [right; do 2 eexists; split; [done|in_list]|].
    split; [done|]. intros H. by not_in_list H.
Qed.

Lemma response_status_witness :
  ∃ path, staging_succeeds Demo.env_ok Demo.w0 path.
Proof.
  apply (response_status (transcribe Demo.backend) Demo.env_ok
           Demo.sample_wav None Demo.w0).
  vm_compute. apply (list_elem_of_further 422 200 [422]), list_elem_of_here.
Defined.

(** X2: a request never touches a file that was already there.  When it is
    over the file system is the one it started from, or that one with a
    single new file under a name that was free; the three globals of the
    engine are what they were. *)
Theorem request_keeps_existing_files
    (tr : engine) (env : OsEnv) (file : UploadFile) (lang : option string)
    (w : world) :
  (fs (snd (transcribe_audio tr env file lang w)) = fs w
   ∨ ∃ path content,
       fs w !! path = None
       ∧ fs (snd (transcribe_audio tr env file lang w))
         = <[path := content]> (fs w))
  ∧ (∀ p c, fs w !! p = Some c ->
            fs (snd (transcribe_audio tr env file lang w)) !! p = Some c)
  ∧ asr_processor (snd (transcribe_audio tr env file lang w))
    = asr_processor w
  ∧ asr_model (snd (transcribe_audio tr env file lang w)) = asr_model w
  ∧ asr_device (snd (transcribe_audio tr env file lang w)) = asr_device w.
Proof.
  destruct (transcribe_audio_world tr env file lang w)
    as (f & evs & -> & Hf).
  simpl. split; [exact Hf|]. split; [|done].
  intros p c Hp. destruct Hf as [-> | (path & content & Hfree & ->)];
    [exact Hp|].
  rewrite lookup_insert_ne; [exact Hp|]. intros ->. congruence.
Qed.

Lemma request_keeps_existing_files_witness :
  fs (snd (transcribe_audio (transcribe Demo.backend) Demo.env_disk_full
             Demo.sample_wav None Demo.w1)) !! "/tmp/tmpa1b2c3d4.wav"
  = Some "old".
Proof.
  destruct (request_keeps_existing_files (transcribe Demo.backend)
              Demo.env_disk_full Demo.sample_wav None Demo.w1)
    as (_ & H & _).
  apply H. vm_compute. reflexivity.
Defined.

(** ** The [finally] clause and the missing one *)

(** X3: a failed [os.unlink] never changes the answer.  The response is
    the one the same request gets when the unlink goes through; the only
    differences are that the temporary file stays on disk with the bytes of
    the upload and that the last thing logged is the warning. *)
Theorem failed_unlink_keeps_response
    (tr : engine) (env : OsEnv) (file : UploadFile) (lang : option string)
    (w : world) (path msg : string) :
  passes_validation file = true ->
  staging_succeeds env w path ->
  unlink_error env = Some msg ->
  fst (transcribe_audio tr env file lang w)
  = fst (transcribe_audio tr (with_unlink_error None env) file lang w)
  ∧ fs (snd (transcribe_audio tr env file lang w))
    = <[path := body file]> (fs w)
  ∧ fs (snd (transcribe_audio tr (with_unlink_error None env) file lang w))
    = fs w
  ∧ last (trace (snd (transcribe_audio tr env file lang w)))
    = Some (EvLog WARNING ("Failed to delete temporary file: " +:+ msg)).
Proof.
  intros Hv Hs Hu.
  assert (Hs' : staging_succeeds (with_unlink_error None env) w path)
    by exact Hs.
  destruct (tr path (staged_world file path w)) as [l r] eqn:Htr.
  destruct (transcribe_audio_run tr env file lang w path Hv Hs l r Htr)
    as (evs & Hrun & _).
  destruct (transcribe_audio_run tr (with_unlink_error None env) file lang w
              path Hv Hs' l r Htr) as (evs' & Hrun' & _).
  rewrite Hrun, Hrun', Hu. cbn [fst snd with_unlink_error unlink_error].
  split; [reflexivity|]. split; [reflexivity|]. split; [reflexivity|].
  unfold add_events; simpl. rewrite !app_assoc. apply last_snoc.
Qed.

Lemma failed_unlink_keeps_response_witness :
  fst (transcribe_audio (transcribe Demo.backend) Demo.env_unlink_fails
         Scenario.fake_wav None Demo.w1)
  = fst (transcribe_audio (transcribe Demo.backend)
           (with_unlink_error None Demo.env_unlink_fails)
           Scenario.fake_wav None Demo.w1)
  ∧ fs (snd (transcribe_audio (transcribe Demo.backend)
               Demo.env_unlink_fails Scenario.fake_wav None Demo.w1))
    = <[ "/tmp/tmpe5f6g7h8.wav" := "not audio" ]> (fs Demo.w1)
  ∧ fs (snd (transcribe_audio (transcribe Demo.backend)
               (with_unlink_error None Demo.env_unlink_fails)
               Scenario.fake_wav None Demo.w1))
    = fs Demo.w1
  ∧ last (trace (snd (transcribe_audio (transcribe Demo.backend)
                        Demo.env_unlink_fails Scenario.fake_wav None
                        Demo.w1)))
    = Some (EvLog WARNING
              ("Failed to delete temporary file: "
               +:+ "[Errno 13] Permission denied")).
Proof.
  apply (failed_unlink_keeps_response (transcribe Demo.backend)
           Demo.env_unlink_fails Scenario.fake_wav None Demo.w1
           "/tmp/tmpe5f6g7h8.wav" "[Errno 13] Permission denied").
  - reflexivity.
  - repeat split; vm_compute; reflexivity.
  - reflexivity.
Defined.

(** X4: the first [try] block has no [finally].  When the temporary file
    has been created and reading the upload or writing it then fails, the
    handler answers HTTP 500 and the file it created is left on disk:
    empty if the upload could not be read, holding the bytes that were
    written before the failure otherwise.  The final file system is the
    initial one plus that file, and nothing is unlinked. *)
Theorem failed_staging_leaves_file
    (tr : engine) (env : OsEnv) (file : UploadFile) (lang : option string)
    (w : world) (path : string) :
  passes_validation file = true ->
  mkstemp_inner (temp_names env) ".wav" (fs w) = Some path ->
  create_error env = None ->
  (∃ msg, read_error env = Some msg) ∨ (∃ msg, write_error env = Some msg) ->
  http_status (fst (transcribe_audio tr env file lang w)) = 500
  ∧ fs w !! path = None
  ∧ fs (snd (transcribe_audio tr env file lang w))
    = <[path := match read_error env with
                | Some _ => ""
                | None => PyStr.take (written_before_error env) (body file)
                end]> (fs w)
  ∧ ∃ msg,
      new_events w (snd (transcribe_audio tr env file lang w))
      = [EvCreate path;
         EvLog ERROR ("Failed to save uploaded file: " +:+ msg)].
Proof.
  intros Hv Hn Hc Hrw.
  destruct (stage_after_create env file w path Hn Hc Hrw) as [msg Hst].
  rewrite (transcribe_audio_stage_fails tr env file lang w _ _ Hv Hst).
  cbn [fst snd http_status].
  split; [reflexivity|]. split; [exact (mkstemp_inner_fresh _ _ _ _ Hn)|].
  split; [reflexivity|]. exists msg. by events.
Qed.

Lemma failed_staging_leaves_file_witness :
  http_status (fst (transcribe_audio (transcribe Demo.backend)
                      Scenario.env_disk_fills Scenario.song_mp3 None Demo.w1))
  = 500
  ∧ fs Demo.w1 !! "/tmp/tmpe5f6g7h8.wav" = None
  ∧ fs (snd (transcribe_audio (transcribe Demo.backend)
               Scenario.env_disk_fills Scenario.song_mp3 None Demo.w1))
    = <[ "/tmp/tmpe5f6g7h8.wav" := PyStr.take 2 "RIFF" ]> (fs Demo.w1)
  ∧ ∃ msg,
      new_events Demo.w1
        (snd (transcribe_audio (transcribe Demo.backend)
                Scenario.env_disk_fills Scenario.song_mp3 None Demo.w1))
      = [EvCreate "/tmp/tmpe5f6g7h8.wav";
         EvLog ERROR ("Failed to save uploaded file: " +:+ msg)].
Proof.
  apply (failed_staging_leaves_file (transcribe Demo.backend)
           Scenario.env_disk_fills Scenario.song_mp3 None Demo.w1
           "/tmp/tmpe5f6g7h8.wav").
  - reflexivity.
  - vm_compute. reflexivity.
  - reflexivity.
  - right. eexists. reflexivity.
Defined.

(** X5: when no temporary file can be created, because every name drawn
    is taken or because the creation itself fails, the handler answers
    HTTP 500 with the staging message, creates nothing, and leaves the
    file system as it was. *)
Theorem no_temp_file_no_change
    (tr : engine) (env : OsEnv) (file : UploadFile) (lang : option string)
    (w : world) :
  passes_validation file = true ->
  mkstemp_inner (temp_names env) ".wav" (fs w) = None
  ∨ (∃ msg, create_error env = Some msg) ->
  http_status (fst (transcribe_audio tr env file lang w)) = 500
  ∧ (∃ msg, http_detail (fst (transcribe_audio tr env file lang w))
            = Some ("Failed to save uploaded file: " +:+ msg))
  ∧ fs (snd (transcribe_audio tr env file lang w)) = fs w
  ∧ created (new_events w (snd (transcribe_audio tr env file lang w))) = []
  ∧ engine_calls (new_events w (snd (transcribe_audio tr env file lang w)))
    = [].
Proof.
  intros Hv Hno.
  destruct (stage_no_file env file w Hno) as [msg Hst].
  rewrite (transcribe_audio_stage_fails tr env file lang w _ _ Hv Hst).
  cbn [fst snd http_status http_detail].
  split; [reflexivity|]. split; [by exists msg|]. split; [reflexivity|].
  split; by events.
Qed.

Lemma no_temp_file_no_change_witness :
  http_status (fst (transcribe_audio (transcribe Demo.backend)
                      Scenario.env_exhausted Demo.sample_wav None Demo.w1))
  = 500
  ∧ (∃ msg, http_detail (fst (transcribe_audio (transcribe Demo.backend)
                                Scenario.env_exhausted Demo.sample_wav None
                                Demo.w1))
            = Some ("Failed to save uploaded file: " +:+ msg))
  ∧ fs (snd (transcribe_audio (transcribe Demo.backend)
               Scenario.env_exhausted Demo.sample_wav None Demo.w1))
    = fs Demo.w1
  ∧ created (new_events Demo.w1
               (snd (transcribe_audio (transcribe Demo.backend)
                       Scenario.env_exhausted Demo.sample_wav None Demo.w1)))
    = []
  ∧ engine_calls
      (new_events Demo.w1
         (snd (transcribe_audio (transcribe Demo.backend)
                 Scenario.env_exhausted Demo.sample_wav None Demo.w1)))
    = [].
Proof.
  apply (no_temp_file_no_change (transcribe Demo.backend)
           Scenario.env_exhausted Demo.sample_wav None Demo.w1).
  - reflexivity.
  - left. vm_compute. reflexivity.
Defined.

(** ** The order of a staged request *)

Lemma mkstemp_inner_name names suffix (files : gmap string string) path :
  mkstemp_inner names suffix files = Some path ->
  ∃ n, n ∈ names ∧ path = n +:+ suffix.
Proof.
  induction names as [|n names IH]; simpl; [done|].
  destruct (files !! (n +:+ suffix)).
  - intros H. destruct (IH H) as (n' & Hin & ->).
    exists n'. split; [by right|done].
  - intros [= <-]. exists n. split; [by left|done].
Qed.

Lemma engine_calls_logs (l : list (level * string)) :
  engine_calls (map log_event l) = [].
Proof. induction l as [|x l IH]; [done|exact IH]. Qed.

(** X6: a staged request whose unlink goes through does, in this order and
    nothing else: create the temporary file, write the upload to it, log
    the file name, call the engine, log what the engine logged and the
    failure if there is one, unlink the file.  The engine is called exactly
    once, on a name that ends in ".wav" whatever the name of the upload,
    and at that moment the file holds exactly the bytes of the upload. *)
Theorem staged_request_events
    (tr : engine) (env : OsEnv) (file : UploadFile) (lang : option string)
    (w : world) (path : string) (l : list (level * string))
    (r : result string) :
  passes_validation file = true ->
  staging_succeeds env w path ->
  unlink_error env = None ->
  tr path (staged_world file path w) = (l, r) ->
  new_events w (snd (transcribe_audio tr env file lang w))
  = [EvCreate path; EvWrite path;
     EvLog INFO ("Processing audio file: " +:+ str_opt (filename file));
     EvTranscribe path]
    ++ map log_event l
    ++ match r with Ok _ => [] | Raise e => [failure_log e] end
    ++ [EvUnlink path]
  ∧ engine_calls (new_events w (snd (transcribe_audio tr env file lang w)))
    = [path]
  ∧ fs (staged_world file path w) !! path = Some (body file)
  ∧ ∃ n, n ∈ temp_names env ∧ path = n +:+ ".wav".
Proof.
  intros Hv Hs Hu Htr.
  rewrite (transcribe_audio_run_events tr env file lang w path l r Hv Hs Htr).
  rewrite Hu.
  assert (Hev :
    new_events w
      (add_events
         ((map log_event l
           ++ match r with Ok _ => [] | Raise e => [failure_log e] end)
          ++ [EvUnlink path])
         (set_fs (fs w) (staged_world file path w)))
    = [EvCreate path; EvWrite path;
       EvLog INFO ("Processing audio file: " +:+ str_opt (filename file));
       EvTranscribe path]
      ++ map log_event l
      ++ match r with Ok _ => [] | Raise e => [failure_log e] end
      ++ [EvUnlink path]).
  { unfold staged_world. by events. }
  rewrite Hev. split; [reflexivity|]. split; [|split].
  - unfold engine_calls. rewrite !omap_app.
    fold (engine_calls (map log_event l)). rewrite engine_calls_logs.
    destruct r as [t|e]; [reflexivity|].
    unfold failure_log. by destruct (is_ASRError e).
  - unfold staged_world; simpl. apply lookup_insert_eq.
  - destruct Hs as [Hname _]. exact (mkstemp_inner_name _ _ _ _ Hname).
Qed.

Lemma staged_request_events_witness :
  new_events Demo.w1
    (snd (transcribe_audio (transcribe Demo.backend) Demo.env_ok
            Scenario.song_mp3 None Demo.w1))
  = [EvCreate "/tmp/tmpe5f6g7h8.wav"; EvWrite "/tmp/tmpe5f6g7h8.wav";
     EvLog INFO ("Processing audio file: " +:+ "Wimbo.MP3");
     EvTranscribe "/tmp/tmpe5f6g7h8.wav"]
    ++ map log_event [(DEBUG, "Raw transcription:   habari ya asubuhi
")]
    ++ []
    ++ [EvUnlink "/tmp/tmpe5f6g7h8.wav"]
  ∧ engine_calls
      (new_events Demo.w1
         (snd (transcribe_audio (transcribe Demo.backend) Demo.env_ok
                 Scenario.song_mp3 None Demo.w1)))
    = ["/tmp/tmpe5f6g7h8.wav"]
  ∧ fs (staged_world Scenario.song_mp3 "/tmp/tmpe5f6g7h8.wav" Demo.w1)
      !! "/tmp/tmpe5f6g7h8.wav" = Some "RIFF"
  ∧ ∃ n, n ∈ temp_names Demo.env_ok
         ∧ "/tmp/tmpe5f6g7h8.wav" = n +:+ ".wav".
Proof.
  apply (staged_request_events (transcribe Demo.backend) Demo.env_ok
           Scenario.song_mp3 None Demo.w1 "/tmp/tmpe5f6g7h8.wav"
           [(DEBUG, "Raw transcription:   habari ya asubuhi
")] (Ok "habari ya asubuhi")).
  - reflexivity.
  - repeat split; vm_compute; reflexivity.
  - reflexivity.
  - vm_compute. reflexivity.
Defined.

(** ** The engine on a staged file *)

Section EngineRuns.

Variable B : Backend.

(** [preprocess_audio] depends on the world only through the bytes under
    the path. *)
Lemma preprocess_audio_bytes audio_path w bytes :
  fs w !! audio_path = Some bytes ->
  preprocess_audio B audio_path w
  = match sf_read B bytes with
    | Ok snd =>
        ([], Ok (unsqueeze0 B
                   (resample B
                      (to_mono B
                         (soundfile_read B snd
                            (MAX_INPUT_LENGTH * Z.pos (samplerate snd))))
                      (Z.pos (samplerate snd)) SAMPLE_RATE)))
    | Raise e =>
        ([(ERROR, "Error processing audio: " +:+ str e)],
         Raise (ASRError ("Error processing audio: " +:+ str e)))
    end.
Proof.
  intros Hf. unfold preprocess_audio, librosa_load; simpl. rewrite Hf.
  by destruct (sf_read B bytes).
Qed.

(** [transcribe] past its guard, by the outcome of the preprocessing and
    of the model. *)
Lemma transcribe_spec audio_path w processor model :
  asr_processor w = Some processor ->
  asr_model w = Some model ->
  transcribe B audio_path w
  = match preprocess_audio B audio_path w with
    | (l, Ok waveform) =>
        match infer B processor model (asr_device w) waveform with
        | Ok raw =>
            (l ++ [(DEBUG, "Raw transcription: " +:+ raw)],
             Ok (PyStr.strip raw))
        | Raise e =>
            (l ++ [(ERROR, "Transcription failed: " +:+ str e)],
             Raise (ASRError ("Transcription failed: " +:+ str e)))
        end
    | (l, Raise e) =>
        (l ++ [(ERROR, "Transcription failed: " +:+ str e)],
         Raise (ASRError ("Transcription failed: " +:+ str e)))
    end.
Proof.
  intros Hp Hm. unfold transcribe, globals; simpl. rewrite Hp, Hm.
  destruct (preprocess_audio B audio_path w) as [l [waveform|e]]; simpl;
    [|by rewrite ?app_nil_r].
  destruct (infer B processor model (asr_device w) waveform) as [raw|e];
    simpl; by rewrite ?app_nil_r.
Qed.

(** X7: an accepted upload that the decoder refuses is answered, by a
    loaded engine, with HTTP 422; the detail is the message of the decoder
    wrapped three times, by [preprocess_audio], by [transcribe] and by the
    handler, each of which logs its own version at level ERROR. *)
Theorem undecodable_upload_response
    (env : OsEnv) (file : UploadFile) (lang : option string) (w : world)
    (path : string) (processor : Wav2Vec2Processor) (model : Wav2Vec2ForCTC)
    (e : exn) :
  passes_validation file = true ->
  staging_succeeds env w path ->
  asr_processor w = Some processor ->
  asr_model w = Some model ->
  sf_read B (body file) = Raise e ->
  transcribe B path (staged_world file path w)
  = ([(ERROR, "Error processing audio: " +:+ str e);
      (ERROR, "Transcription failed: "
              +:+ ("Error processing audio: " +:+ str e))],
     Raise (ASRError ("Transcription failed: "
                      +:+ ("Error processing audio: " +:+ str e))))
  ∧ fst (transcribe_audio (transcribe B) env file lang w)
    = Raise (HTTPException 422
               ("ASR processing error: "
                +:+ ("Transcription failed: "
                     +:+ ("Error processing audio: " +:+ str e))))
  ∧ EvLog ERROR ("ASR processing error: "
                 +:+ ("Transcription failed: "
                      +:+ ("Error processing audio: " +:+ str e)))
    ∈ trace (snd (transcribe_audio (transcribe B) env file lang w)).
Proof.
  intros Hv Hs Hp Hm Hdec.
  assert (Htr : transcribe B path (staged_world file path w)
    = ([(ERROR, "Error processing audio: " +:+ str e);
        (ERROR, "Transcription failed: "
                +:+ ("Error processing audio: " +:+ str e))],
       Raise (ASRError ("Transcription failed: "
                        +:+ ("Error processing audio: " +:+ str e))))).
  { rewrite (transcribe_spec path (staged_world file path w) processor model
               Hp Hm).
    rewrite (preprocess_audio_bytes path _ (body file))
      by apply lookup_insert_eq.
    by rewrite Hdec. }
  split; [exact Htr|]. split.
  - destruct (transcribe_audio_run (transcribe B) env file lang w path
                Hv Hs _ _ Htr) as (evs & -> & _).
    reflexivity.
  - rewrite (transcribe_audio_run_events (transcribe B) env file lang w path
               _ _ Hv Hs Htr).
    destruct (unlink_error env); unfold add_events; cbn [trace];
      rewrite !elem_of_app; cbn [failure_log is_ASRError str];
      right; left; right; apply list_elem_of_here.
Qed.

(** X8: for an accepted, staged upload that decodes, a loaded engine hands
    the model the waveform [preprocess_audio] makes of the uploaded bytes;
    if the model returns a text, the handler returns the six-key
    dictionary with that text stripped, and if the model fails it answers
    HTTP 422 with the failure wrapped by [transcribe] and by the handler. *)
Theorem decodable_upload_response
    (env : OsEnv) (file : UploadFile) (lang : option string) (w : world)
    (path : string) (processor : Wav2Vec2Processor) (model : Wav2Vec2ForCTC)
    (snd : SoundFile (sample B)) :
  passes_validation file = true ->
  staging_succeeds env w path ->
  asr_processor w = Some processor ->
  asr_model w = Some model ->
  sf_read B (body file) = Ok snd ->
  match
    infer B processor model (asr_device w)
      (unsqueeze0 B
         (resample B
            (to_mono B
               (soundfile_read B snd
                  (MAX_INPUT_LENGTH * Z.pos (samplerate snd))))
            (Z.pos (samplerate snd)) SAMPLE_RATE))
  with
  | Ok raw =>
      fst (transcribe_audio (transcribe B) env file lang w)
      = Ok [("status", PStr "success");
            ("transcription", PStr (PyStr.strip raw));
            ("language", PStr (default "sw" lang));
            ("model", PStr "RareElf/swahili-wav2vec2-asr");
            ("model_version", PStr "1.0.0");
            ("duration_seconds", PNone)]
  | Raise e =>
      fst (transcribe_audio (transcribe B) env file lang w)
      = Raise (HTTPException 422
                 ("ASR processing error: "
                  +:+ ("Transcription failed: " +:+ str e)))
  end.
Proof.
  intros Hv Hs Hp Hm Hdec.
  pose proof (transcribe_spec path (staged_world file path w) processor model
                Hp Hm) as Htr.
  rewrite (preprocess_audio_bytes path _ (body file)) in Htr
    by apply lookup_insert_eq.
  rewrite Hdec in Htr. cbn [asr_device staged_world add_events set_fs] in Htr.
  destruct (infer B processor model (asr_device w) _) as [raw|e];
    destruct (transcribe_audio_run (transcribe B) env file lang w path
                Hv Hs _ _ Htr) as (evs & -> & _);
    reflexivity.
Qed.

End EngineRuns.

Lemma undecodable_upload_response_witness :
  fst (transcribe_audio (transcribe Demo.backend) Demo.env_ok
         Scenario.fake_wav None Demo.w1)
  = Raise (HTTPException 422
             ("ASR processing error: "
              +:+ ("Transcription failed: "
                   +:+ ("Error processing audio: "
                        +:+ "Error opening file: Format not recognised.")))).
Proof.
  refine (proj1 (proj2
    (undecodable_upload_response Demo.backend Demo.env_ok Scenario.fake_wav
       None Demo.w1 "/tmp/tmpe5f6g7h8.wav"
       {| processor_name := DEFAULT_MODEL_NAME |}
       {| model_name := DEFAULT_MODEL_NAME; model_device := "cpu";
          training := false |}
       (OtherException "Error opening file: Format not recognised.")
       _ _ _ _ _))).
  - reflexivity.
  - repeat split; vm_compute; reflexivity.
  - reflexivity.
  - reflexivity.
  - reflexivity.
Defined.

Lemma decodable_upload_response_witness :
  fst (transcribe_audio (transcribe Demo.backend) Demo.env_ok
         Scenario.song_mp3 (Some "en") Demo.w1)
  = Ok [("status", PStr "success");
        ("transcription", PStr "habari ya asubuhi");
        ("language", PStr "en");
        ("model", PStr "RareElf/swahili-wav2vec2-asr");
        ("model_version", PStr "1.0.0");
        ("duration_seconds", PNone)].
Proof.
  refine (decodable_upload_response Demo.backend Demo.env_ok Scenario.song_mp3
            (Some "en") Demo.w1 "/tmp/tmpe5f6g7h8.wav"
            {| processor_name := DEFAULT_MODEL_NAME |}
            {| model_name := DEFAULT_MODEL_NAME; model_device := "cpu";
               training := false |}
            {| samplerate := 8000%positive;
               channels := [[10; 20; 30; 40]; [30; 40; 50; 60]] |}
            _ _ _ _ _).
  - reflexivity.
  - repeat split; vm_compute; reflexivity.
  - reflexivity.
  - reflexivity.
  - reflexivity.
Defined.

(** ** Silence and pass-through *)

Lemma all_space_lstrip (s : string) :
  all_space (PyStr.lstrip s) = all_space s.
Proof.
  induction s as [|a s IH]; [reflexivity|].
  cbn [PyStr.lstrip all_space].
  destruct (PyStr.isspace a) eqn:Ha; [exact IH|].
  cbn [all_space]. by rewrite Ha.
Qed.

Lemma rstrip_empty (s : string) :
  PyStr.rstrip s = "" ↔ all_space s = true.
Proof.
  induction s as [|a s IH]; [done|].
  cbn [PyStr.rstrip all_space].
  destruct (PyStr.rstrip s) as [|c r].
  - destruct IH as [IH _]. rewrite (IH eq_refl), andb_true_r.
    by destruct (PyStr.isspace a).
  - split; [discriminate|].
    intros [_ Hs]%andb_true_iff. destruct IH as [_ IH].
    by specialize (IH Hs).
Qed.

(** [strip] returns the empty string exactly on white space. *)
Lemma strip_empty (s : string) : PyStr.strip s = "" ↔ all_space s = true.
Proof. unfold PyStr.strip. by rewrite rstrip_empty, all_space_lstrip. Qed.

(** X9: when the model decodes a file to the empty string or to white
    space only, as it does on silence, [transcribe] does not fail: it
    returns the empty string, and the empty string is returned in no other
    case. *)
Theorem transcribe_of_silence
    (B : Backend) (audio_path : string) (w : world)
    (processor : Wav2Vec2Processor) (model : Wav2Vec2ForCTC)
    (l : list (level * string)) (waveform : tensor (sample B))
    (raw : string) :
  asr_processor w = Some processor ->
  asr_model w = Some model ->
  preprocess_audio B audio_path w = (l, Ok waveform) ->
  infer B processor model (asr_device w) waveform = Ok raw ->
  transcribe B audio_path w
  = (l ++ [(DEBUG, "Raw transcription: " +:+ raw)], Ok (PyStr.strip raw))
  ∧ (PyStr.strip raw = "" ↔ all_space raw = true).
Proof.
  intros Hp Hm Hpre Hinf.
  rewrite (transcribe_spec B audio_path w processor model Hp Hm).
  rewrite Hpre, Hinf. split; [reflexivity|apply strip_empty].
Qed.

Lemma transcribe_of_silence_witness :
  transcribe Scenario.silent "a.wav"
    (snd (module_import Scenario.silent
            (initial_world {[ "a.wav" := "RIFF" ]})))
  = ([] ++ [(DEBUG, "Raw transcription: " +:+ "   ")], Ok (PyStr.strip "   "))
  ∧ (PyStr.strip "   " = "" ↔ all_space "   " = true).
Proof.
  apply (transcribe_of_silence Scenario.silent "a.wav"
           (snd (module_import Scenario.silent
                   (initial_world {[ "a.wav" := "RIFF" ]})))
           {| processor_name := DEFAULT_MODEL_NAME |}
           {| model_name := DEFAULT_MODEL_NAME; model_device := "cuda";
              training := false |}
           [] (T2 [[20; 20; 20; 20; 20; 20; 20; 20]]) "   ").
  - reflexivity.
  - reflexivity.
  - vm_compute. reflexivity.
  - reflexivity.
Defined.

(** X10: a single-channel file that is already at 16 kHz and no longer
    than 30 seconds goes through [preprocess_audio] unchanged: its samples
    are neither cut, mixed nor resampled, only wrapped in a batch of
    one. *)
Theorem preprocess_audio_passthrough
    (B : Backend) (audio_path : string) (w : world) (bytes : string)
    (y : list (sample B)) :
  fs w !! audio_path = Some bytes ->
  sf_read B bytes = Ok {| samplerate := 16000%positive; channels := [y] |} ->
  Z.of_nat (length y) <= MAX_INPUT_LENGTH * SAMPLE_RATE ->
  preprocess_audio B audio_path w = ([], Ok (T2 [y])).
Proof.
  intros Hf Hdec Hlen.
  rewrite (preprocess_audio_bytes B audio_path w bytes Hf), Hdec.
  unfold soundfile_read; cbn [channels samplerate map].
  rewrite take_ge by (unfold MAX_INPUT_LENGTH, SAMPLE_RATE in *; lia).
  reflexivity.
Qed.

Lemma preprocess_audio_passthrough_witness :
  preprocess_audio Scenario.native "a.wav" (initial_world {[ "a.wav" := "x" ]})
  = ([], Ok (T2 [[5; 6; 7]])).
Proof.
  apply (preprocess_audio_passthrough Scenario.native "a.wav"
           (initial_world {[ "a.wav" := "x" ]}) "x" [5; 6; 7]).
  - vm_compute. reflexivity.
  - reflexivity.
  - vm_compute. discriminate.
Defined.

(** ** [load_model] *)

(** The three ways [load_model] ends, with the world each leaves. *)
Lemma load_model_cases (B : Backend) (name : string) (w : world) :
  match processor_from_pretrained B name with
  | Raise e0 =>
      ∃ evs,
        load_model B name w
        = (Raise (ASRError ("Failed to load ASR model: " +:+ str e0)),
           add_events evs (set_asr_device (Some (selected_device B)) w))
  | Ok p =>
      match model_from_pretrained B name (selected_device B) with
      | Raise e0 =>
          ∃ evs,
            load_model B name w
            = (Raise (ASRError ("Failed to load ASR model: " +:+ str e0)),
               add_events evs
                 (set_asr_processor (Some p)
                    (set_asr_device (Some (selected_device B)) w)))
      | Ok m =>
          ∃ evs,
            load_model B name w
            = (Ok tt,
               add_events evs
                 (set_asr_model
                    (Some {| model_name := model_name m;
                             model_device := model_device m;
                             training := false |})
                    (set_asr_processor (Some p)
                       (set_asr_device (Some (selected_device B)) w))))
      end
  end.
Proof.
  unfold load_model, assign, selected_device; simpl.
  destruct (processor_from_pretrained B name) as [p|e0]; simpl.
  - destruct (model_from_pretrained B name _) as [m|e0]; simpl.
    + eexists. unfold add_events, set_asr_model, set_asr_processor,
        set_asr_device; simpl. rewrite <- !app_assoc. reflexivity.
    + eexists. unfold add_events, set_asr_model, set_asr_processor,
        set_asr_device; simpl. rewrite <- !app_assoc. reflexivity.
  - eexists. unfold add_events, set_asr_model, set_asr_processor,
      set_asr_device; simpl. rewrite <- !app_assoc. reflexivity.
Qed.

(** X11: when loading the processor or the model raises an exception,
    [load_model] raises an [ASRError] whose message is "Failed to load ASR
    model: " and the message of that exception.  The failure leaves
    [asr_model] as it was, but [asr_device] has been assigned already, and
    so has [asr_processor] when it is the model that failed to load. *)
Theorem load_model_failure
    (B : Backend) (name : string) (w w' : world) (e : exn) :
  load_model B name w = (Raise e, w') ->
  (∃ e0,
     e = ASRError ("Failed to load ASR model: " +:+ str e0)
     ∧ ((processor_from_pretrained B name = Raise e0
         ∧ asr_processor w' = asr_processor w)
        ∨ (∃ p, processor_from_pretrained B name = Ok p
                ∧ model_from_pretrained B name (selected_device B) = Raise e0
                ∧ asr_processor w' = Some p)))
  ∧ asr_model w' = asr_model w
  ∧ asr_device w' = Some (selected_device B).
Proof.
  intros H. pose proof (load_model_cases B name w) as Hc.
  destruct (processor_from_pretrained B name) as [p|e0].
  - destruct (model_from_pretrained B name (selected_device B)) as [m|e0].
    + destruct Hc as [evs Hc]. rewrite Hc in H. discriminate.
    + destruct Hc as [evs Hc]. rewrite Hc in H. injection H as <- <-.
      split; [|done]. exists e0. split; [reflexivity|].
      right. by exists p.
  - destruct Hc as [evs Hc]. rewrite Hc in H. injection H as <- <-.
    split; [|done]. exists e0. split; [reflexivity|]. by left.
Qed.

Lemma load_model_failure_witness :
  (∃ e0,
     ASRError "Failed to load ASR model: Connection error"
     = ASRError ("Failed to load ASR model: " +:+ str e0)
     ∧ ((processor_from_pretrained Demo.offline DEFAULT_MODEL_NAME = Raise e0
         ∧ asr_processor (snd (module_import Demo.offline Demo.w0))
           = asr_processor Demo.w0)
        ∨ (∃ p, processor_from_pretrained Demo.offline DEFAULT_MODEL_NAME
                = Ok p
                ∧ model_from_pretrained Demo.offline DEFAULT_MODEL_NAME
                    (selected_device Demo.offline) = Raise e0
                ∧ asr_processor (snd (module_import Demo.offline Demo.w0))
                  = Some p)))
  ∧ asr_model (snd (module_import Demo.offline Demo.w0)) = asr_model Demo.w0
  ∧ asr_device (snd (module_import Demo.offline Demo.w0))
    = Some (selected_device Demo.offline).
Proof.
  apply (load_model_failure Demo.offline DEFAULT_MODEL_NAME Demo.w0
           (snd (module_import Demo.offline Demo.w0))
           (ASRError "Failed to load ASR model: Connection error")).
  reflexivity.
Defined.

(** The globals after [load_model], whatever its outcome. *)
Lemma load_model_globals (B : Backend) (name : string) (w : world) :
  asr_device (snd (load_model B name w)) = Some (selected_device B)
  ∧ ((fst (load_model B name w) = Ok tt
      ∧ is_Some (asr_processor (snd (load_model B name w)))
      ∧ ∃ m, asr_model (snd (load_model B name w)) = Some m
             ∧ training m = false)
     ∨ (fst (load_model B name w) ≠ Ok tt
        ∧ asr_model (snd (load_model B name w)) = asr_model w
        ∧ (is_Some (asr_processor w) ->
           is_Some (asr_processor (snd (load_model B name w)))))).
Proof.
  pose proof (load_model_cases B name w) as Hc.
  destruct (processor_from_pretrained B name) as [p|e0].
  - destruct (model_from_pretrained B name (selected_device B)) as [m|e0];
      destruct Hc as [evs ->]; cbn [fst snd].
    + split; [reflexivity|]. left. split; [reflexivity|]. split; [by eexists|].
      by eexists.
    + split; [reflexivity|]. right. split; [discriminate|].
      split; [reflexivity|]. intros _. by eexists.
  - destruct Hc as [evs ->]; cbn [fst snd].
    split; [reflexivity|]. right. split; [discriminate|]. done.
Qed.

(** X12: in every world the service can reach, a loaded model comes with
    a loaded processor, with the device [load_model] selects, and is in
    evaluation mode.  So [health_check], which looks at [asr_model] only,
    reports model_loaded true exactly when [transcribe], which looks at
    the processor too, gets past its "ASR model not loaded" guard. *)
Theorem reachable_engine_state (B : Backend) (w : world) :
  reachable B w ->
  (∀ m, asr_model w = Some m ->
        is_Some (asr_processor w)
        ∧ asr_device w = Some (selected_device B)
        ∧ training m = false)
  ∧ (health_field w "model_loaded" = Some (PBool true) ↔ ¬ not_loaded w).
Proof.
  intros Hreach.
  assert (Hinv : ∀ m, asr_model w = Some m ->
            is_Some (asr_processor w)
            ∧ asr_device w = Some (selected_device B)
            ∧ training m = false).
  { induction Hreach as [f | name w Hreach IH | tr env file lang w Hreach IH
                         | f w Hreach IH].
    - discriminate.
    - intros m Hm.
      destruct (load_model_globals B name w)
        as [Hd [(_ & Hp & m' & Hm' & Ht) | (_ & Hsame & Hp)]].
      + rewrite Hm' in Hm. injection Hm as <-. done.
      + rewrite Hsame in Hm. destruct (IH m Hm) as (Hp0 & _ & Ht).
        split; [by apply Hp|]. done.
    - destruct (transcribe_audio_world tr env file lang w)
        as (f & evs & -> & _). exact IH.
    - exact IH. }
  split; [exact Hinv|].
  unfold health_field, health_check, health_guard, health_body, globals,
    not_loaded; simpl.
  destruct (asr_model w) as [m|] eqn:Hm; simpl.
  - destruct (Hinv m eq_refl) as ([p Hp] & _). rewrite Hp.
    split; [|done]. intros _ [? | ?]; discriminate.
  - split; [discriminate|]. intros H. destruct H. by right.
Qed.

Lemma reachable_engine_state_witness :
  (∀ m, asr_model Demo.w1 = Some m ->
        is_Some (asr_processor Demo.w1)
        ∧ asr_device Demo.w1 = Some (selected_device Demo.backend)
        ∧ training m = false)
  ∧ (health_field Demo.w1 "model_loaded" = Some (PBool true)
     ↔ ¬ not_loaded Demo.w1).
Proof.
  apply (reachable_engine_state Demo.backend Demo.w1).
  apply (reach_load_model Demo.backend DEFAULT_MODEL_NAME Demo.w0).
  apply reach_import.
Defined.

(** X13: once [load_model] has been called, successfully or not,
    [health_check] reports the device [load_model] selected, "cuda" or
    "cpu", never "unknown", and it reports status "healthy" in either case;
    after a failed call model_loaded is what it was before the call, after
    a successful one it is true. *)
Theorem health_after_load_model (B : Backend) (name : string) (w : world) :
  health_field (snd (load_model B name w)) "status" = Some (PStr "healthy")
  ∧ health_field (snd (load_model B name w)) "device"
    = Some (PStr (selected_device B))
  ∧ selected_device B ∈ ["cuda"; "cpu"]
  ∧ (fst (load_model B name w) ≠ Ok tt ->
     health_field (snd (load_model B name w)) "model_loaded"
     = health_field w "model_loaded")
  ∧ (fst (load_model B name w) = Ok tt ->
     health_field (snd (load_model B name w)) "model_loaded"
     = Some (PBool true)).
Proof.
  destruct (load_model_globals B name w) as [Hd Hcases].
  unfold health_field, health_check, health_guard, health_body, globals;
    simpl.
  rewrite Hd.
  split; [reflexivity|]. split.
  { unfold selected_device. by destruct (cuda_is_available B). }
  split.
  { unfold selected_device. destruct (cuda_is_available B);
      [apply list_elem_of_here
      |apply list_elem_of_further, list_elem_of_here]. }
  destruct Hcases as [(Hok & _ & m & Hm & _) | (Hno & Hsame & _)].
  - split; [by intros []|]. intros _. by rewrite Hm.
  - split; [|by intros ?]. intros _. by rewrite Hsame.
Qed.

Lemma health_after_load_model_witness :
  health_field (snd (module_import Demo.offline Demo.w0)) "model_loaded"
  = health_field Demo.w0 "model_loaded".
Proof.
  destruct (health_after_load_model Demo.offline DEFAULT_MODEL_NAME Demo.w0)
    as (_ & _ & _ & H & _).
  apply H. discriminate.
Defined.

(** ** File names *)

Lemma take_drop_string (k : nat) (s : string) :
  PyStr.take k s +:+ PyStr.drop k s = s.
Proof.
  revert s. induction k as [|k IH]; intros [|a s]; try reflexivity.
  cbn [PyStr.take PyStr.drop].
  change (String a (PyStr.take k s) +:+ PyStr.drop k s)
    with (String a (PyStr.take k s +:+ PyStr.drop k s)).
  by rewrite IH.
Qed.

(** [root + ext == path], as the documentation of [splitext] has it. *)
Lemma splitext_concat (p : string) :
  fst (splitext p) +:+ snd (splitext p) = p.
Proof.
  unfold splitext.
  destruct (_ && _); cbn [fst snd].
  - apply take_drop_string.
  - induction p as [|a p IH]; [reflexivity|].
    change (String a p +:+ "") with (String a (p +:+ "")). by rewrite IH.
Qed.

(** X14: every upload that passes validation has a file name, and that
    name ends, up to the case of its letters, in one of the seven
    extensions of the allow-list; its content type, if it has one, begins
    with "audio/". *)
Theorem accepted_upload_has_audio_name (file : UploadFile) :
  passes_validation file = true ->
  (∃ name root ext,
     filename file = Some name
     ∧ name = root +:+ ext
     ∧ PyStr.lower ext ∈ audio_extensions)
  ∧ (∀ ct, content_type file = Some ct -> PyStr.startswith ct "audio/" = true).
Proof.
  unfold passes_validation. intros [Hct Hext]%andb_true_iff.
  apply bool_decide_eq_true_1 in Hext. split.
  - unfold file_extension in Hext.
    destruct (filename file) as [name|] eqn:Hname.
    + exists name, (fst (splitext name)), (snd (splitext name)).
      split; [reflexivity|]. split; [|exact Hext].
      symmetry. apply splitext_concat.
    + exfalso. revert Hext. cbn.
      apply (bool_decide_eq_false_1 ("" ∈ audio_extensions)). reflexivity.
  - intros ct Hc. by rewrite Hc in Hct.
Qed.

Lemma accepted_upload_has_audio_name_witness :
  (∃ name root ext,
     filename Scenario.song_mp3 = Some name
     ∧ name = root +:+ ext
     ∧ PyStr.lower ext ∈ audio_extensions)
  ∧ (∀ ct, content_type Scenario.song_mp3 = Some ct ->
           PyStr.startswith ct "audio/" = true).
Proof.
  apply (accepted_upload_has_audio_name Scenario.song_mp3). reflexivity.
Defined.

(** [lower] moves no character to or from "." or "/". *)
Lemma lower_char_dot (a : ascii) :
  Ascii.eqb (PyStr.lower_char a) "." = Ascii.eqb a ".".
Proof. destruct a as [[] [] [] [] [] [] [] []]; reflexivity. Qed.

Lemma lower_char_slash (a : ascii) :
  Ascii.eqb (PyStr.lower_char a) "/" = Ascii.eqb a "/".
Proof. destruct a as [[] [] [] [] [] [] [] []]; reflexivity. Qed.

Lemma lower_char_idem (a : ascii) :
  PyStr.lower_char (PyStr.lower_char a) = PyStr.lower_char a.
Proof. destruct a as [[] [] [] [] [] [] [] []]; reflexivity. Qed.

Lemma lower_idem (s : string) : PyStr.lower (PyStr.lower s) = PyStr.lower s.
Proof.
  induction s as [|a s IH]; [reflexivity|].
  cbn [PyStr.lower]. by rewrite lower_char_idem, IH.
Qed.

Lemma rfind_from_lower (c : ascii) (s : string) (i : Z) :
  (∀ a, Ascii.eqb (PyStr.lower_char a) c = Ascii.eqb a c) ->
  PyStr.rfind_from c (PyStr.lower s) i = PyStr.rfind_from c s i.
Proof.
  intros Hc. revert i. induction s as [|a s IH]; intros i; [reflexivity|].
  cbn [PyStr.lower PyStr.rfind_from]. by rewrite IH, Hc.
Qed.

Lemma take_lower (k : nat) (s : string) :
  PyStr.take k (PyStr.lower s) = PyStr.lower (PyStr.take k s).
Proof.
  revert s. induction k as [|k IH]; intros [|a s]; try reflexivity.
  cbn [PyStr.lower PyStr.take]. by rewrite IH.
Qed.

Lemma drop_lower (k : nat) (s : string) :
  PyStr.drop k (PyStr.lower s) = PyStr.lower (PyStr.drop k s).
Proof.
  revert s. induction k as [|k IH]; intros [|a s]; try reflexivity.
  cbn [PyStr.lower PyStr.drop]. apply IH.
Qed.

Lemma eqb_dot_lower (x : string) :
  String.eqb (PyStr.lower x) "." = String.eqb x ".".
Proof.
  destruct x as [|a x]; [reflexivity|].
  cbn [PyStr.lower String.eqb]. rewrite lower_char_dot.
  by destruct x.
Qed.

Lemma splitext_scan_lower (p : string) (i : Z) (n : nat) :
  splitext_scan (PyStr.lower p) i n = splitext_scan p i n.
Proof.
  revert i. induction n as [|n IH]; intros i; [reflexivity|].
  cbn [splitext_scan]. rewrite IH.
  unfold PyStr.slice1. destruct (i <? 0); [reflexivity|].
  by rewrite drop_lower, take_lower, eqb_dot_lower.
Qed.

(** [splitext] commutes with [lower]. *)
Lemma splitext_lower (p : string) :
  splitext (PyStr.lower p)
  = (PyStr.lower (fst (splitext p)), PyStr.lower (snd (splitext p))).
Proof.
  unfold splitext, PyStr.rfind.
  rewrite !rfind_from_lower by (apply lower_char_dot || apply lower_char_slash).
  rewrite splitext_scan_lower.
  destruct (_ && _); cbn [fst snd]; [|reflexivity].
  by rewrite take_lower, drop_lower.
Qed.

(** X15: validation does not depend on the case of the file name: an
    upload is accepted exactly when the same upload under the lower-cased
    name is. *)
Theorem validation_ignores_case (file : UploadFile) :
  passes_validation (with_filename (PyStr.lower <$> filename file) file)
  = passes_validation file.
Proof.
  assert (Hext :
    file_extension (with_filename (PyStr.lower <$> filename file) file)
    = file_extension file).
  { unfold file_extension, with_filename; cbn [filename].
    destruct (filename file) as [name|]; [|reflexivity].
    change (default "" (PyStr.lower <$> Some name)) with (PyStr.lower name).
    change (default "" (Some name)) with name.
    rewrite splitext_lower. cbn [snd]. apply lower_idem. }
  unfold passes_validation. rewrite Hext. reflexivity.
Qed.

(** ** Requests do not depend on the past *)

(** Two worlds with the same globals and the same disk. *)
Lemma transcribe_same_state (B : Backend) (audio_path : string)
    (w1 w2 : world) :
  asr_processor w1 = asr_processor w2 ->
  asr_model w1 = asr_model w2 ->
  asr_device w1 = asr_device w2 ->
  fs w1 = fs w2 ->
  transcribe B audio_path w1 = transcribe B audio_path w2.
Proof.
  intros Hp Hm Hd Hf.
  assert (Hpre : preprocess_audio B audio_path w1
                 = preprocess_audio B audio_path w2).
  { unfold preprocess_audio, librosa_load; simpl. by rewrite Hf. }
  destruct (asr_processor w2) as [processor|] eqn:Hp2;
    [destruct (asr_model w2) as [model|] eqn:Hm2|].
  - rewrite (transcribe_spec B audio_path w1 processor model Hp Hm).
    rewrite (transcribe_spec B audio_path w2 processor model Hp2 Hm2).
    by rewrite Hpre, Hd.
  - rewrite !transcribe_not_loaded; [done|by right|by right].
  - rewrite !transcribe_not_loaded; [done|by left|by left].
Qed.

(** X16: the answer of the service to a request is decided by the three
    globals of the engine and by the disk: in two worlds that agree on
    them, whatever was logged or handled before, the same request under
    the same operating-system outcomes gets the same response and leaves
    the same files. *)
Theorem response_depends_on_state_only
    (B : Backend) (env : OsEnv) (file : UploadFile) (lang : option string)
    (w1 w2 : world) :
  asr_processor w1 = asr_processor w2 ->
  asr_model w1 = asr_model w2 ->
  asr_device w1 = asr_device w2 ->
  fs w1 = fs w2 ->
  fst (transcribe_audio (transcribe B) env file lang w1)
  = fst (transcribe_audio (transcribe B) env file lang w2)
  ∧ fs (snd (transcribe_audio (transcribe B) env file lang w1))
    = fs (snd (transcribe_audio (transcribe B) env file lang w2)).
Proof.
  intros Hp Hm Hd Hf.
  destruct (passes_validation file) eqn:Hv.
  2:{ destruct (validate_rejects env file w1 Hv) as [d1 H1].
      destruct (validate_rejects env file w2 Hv) as [d2 H2].
      assert (d1 = d2) as <-.
      { unfold validate in H1, H2.
        destruct (content_type file) as [ct|];
          [destruct (negb (PyStr.startswith ct "audio/"))|];
          try destruct (negb (bool_decide _));
          simpl in H1, H2; congruence. }
      rewrite (transcribe_audio_rejected _ env file lang w1 d1 H1).
      rewrite (transcribe_audio_rejected _ env file lang w2 d1 H2).
      done. }
  destruct (stage_cases env w1)
    as [[path Hs] | [Hno | (path & Hn & Hc & Hrw)]].
  - assert (Hs2 : staging_succeeds env w2 path).
    { unfold staging_succeeds in *. by rewrite <- Hf. }
    assert (Hsame : transcribe B path (staged_world file path w1)
                    = transcribe B path (staged_world file path w2)).
    { apply transcribe_same_state; try assumption.
      unfold staged_world; simpl. by rewrite Hf. }
    destruct (transcribe B path (staged_world file path w1)) as [l r] eqn:Htr.
    symmetry in Hsame.
    destruct (transcribe_audio_run _ env file lang w1 path Hv Hs l r Htr)
      as (evs1 & -> & _).
    destruct (transcribe_audio_run _ env file lang w2 path Hv Hs2 l r Hsame)
      as (evs2 & -> & _).
    split; [reflexivity|].
    destruct (unlink_error env); unfold staged_world; simpl; by rewrite Hf.
  - assert (Hno2 : mkstemp_inner (temp_names env) ".wav" (fs w2) = None
                   ∨ (∃ msg, create_error env = Some msg)).
    { by rewrite <- Hf. }
    unfold stage, NamedTemporaryFile in *.
    assert (Hst : ∃ msg,
      stage env file w1
      = (Raise (HTTPException 500 ("Failed to save uploaded file: " +:+ msg)),
         add_events [EvLog ERROR ("Failed to save uploaded file: " +:+ msg)]
           w1)
      ∧ stage env file w2
        = (Raise (HTTPException 500
                    ("Failed to save uploaded file: " +:+ msg)),
           add_events [EvLog ERROR ("Failed to save uploaded file: " +:+ msg)]
             w2)).
    { unfold stage, NamedTemporaryFile; simpl. rewrite <- Hf.
      destruct (mkstemp_inner _ _ _) as [name|]; simpl.
      - destruct Hno as [Hn | [msg Hc]]; [discriminate|].
        rewrite Hc; simpl. by exists msg.
      - by eexists. }
    destruct Hst as (msg & Hst1 & Hst2).
    rewrite (transcribe_audio_stage_fails _ env file lang w1 _ _ Hv Hst1).
    rewrite (transcribe_audio_stage_fails _ env file lang w2 _ _ Hv Hst2).
    split; [reflexivity|exact Hf].
  - assert (Hst : ∃ msg,
      stage env file w1
      = (Raise (HTTPException 500 ("Failed to save uploaded file: " +:+ msg)),
         add_events
           [EvCreate path;
            EvLog ERROR ("Failed to save uploaded file: " +:+ msg)]
           (set_fs (<[path := left_in_file env file]> (fs w1)) w1))
      ∧ stage env file w2
        = (Raise (HTTPException 500
                    ("Failed to save uploaded file: " +:+ msg)),
           add_events
             [EvCreate path;
              EvLog ERROR ("Failed to save uploaded file: " +:+ msg)]
             (set_fs (<[path := left_in_file env file]> (fs w2)) w2))).
    { unfold stage, NamedTemporaryFile, file_read, file_write, left_in_file;
        simpl.
      rewrite <- Hf, Hn, Hc; simpl.
      destruct (read_error env) as [msg|] eqn:Hr; simpl.
      - exists msg. by rewrite !add_events_add.
      - destruct Hrw as [[msg H] | [msg H]]; [discriminate|].
        rewrite H; simpl. exists msg.
        unfold add_events, set_fs; simpl.
        by rewrite !insert_insert_eq, <- !app_assoc. }
    destruct Hst as (msg & Hst1 & Hst2).
    rewrite (transcribe_audio_stage_fails _ env file lang w1 _ _ Hv Hst1).
    rewrite (transcribe_audio_stage_fails _ env file lang w2 _ _ Hv Hst2).
    split; [reflexivity|]. simpl. by rewrite Hf.
Qed.

Lemma response_depends_on_state_only_witness :
  fst (transcribe_audio (transcribe Demo.backend) Demo.env_ok Demo.sample_wav
         None Demo.w1)
  = fst (transcribe_audio (transcribe Demo.backend) Demo.env_ok
           Demo.sample_wav None
           (snd (transcribe_audio (transcribe Demo.backend) Demo.env_ok
                   Scenario.fake_wav None Demo.w1)))
  ∧ fs (snd (transcribe_audio (transcribe Demo.backend) Demo.env_ok
               Demo.sample_wav None Demo.w1))
    = fs (snd (transcribe_audio (transcribe Demo.backend) Demo.env_ok
                 Demo.sample_wav None
                 (snd (transcribe_audio (transcribe Demo.backend) Demo.env_ok
                         Scenario.fake_wav None Demo.w1)))).
Proof.
  apply (response_depends_on_state_only Demo.backend Demo.env_ok
           Demo.sample_wav None Demo.w1
           (snd (transcribe_audio (transcribe Demo.backend) Demo.env_ok
                   Scenario.fake_wav None Demo.w1))).
  - reflexivity.
  - reflexivity.
  - reflexivity.
  - vm_compute. reflexivity.
Defined.

(** X17: handling a request, whatever its outcome, changes nothing of
    what [health_check] reports. *)
Theorem health_unchanged_by_request
    (tr : engine) (env : OsEnv) (file : UploadFile) (lang : option string)
    (w : world) :
  health_check (snd (transcribe_audio tr env file lang w)) = health_check w.
Proof.
  destruct (transcribe_audio_world tr env file lang w) as (f & evs & -> & _).
  reflexivity.
Qed.

(** ** Names that are only an extension *)

Lemma rfind_from_absent (c : ascii) (s : string) (i : Z) :
  PyStr.contains s (String c "") = false -> PyStr.rfind_from c s i = -1.
Proof.
  revert i. induction s as [|a s IH]; intros i; [reflexivity|].
  unfold PyStr.contains; fold PyStr.contains. cbn [String.prefix].
  destruct (ascii_dec c a) as [->|Hne].
  - destruct s; discriminate.
  - cbn [orb]. intros Hs. cbn [PyStr.rfind_from]. rewrite (IH _ Hs).
    cbn. destruct (Ascii.eqb_spec a c) as [->|_]; [congruence|reflexivity].
Qed.

(** X18: a file name that is a dot followed by letters only, such as
    ".wav", has no extension for [splitext]: the handler computes the
    empty extension and rejects the upload with HTTP 400, although the
    name ends in an allowed extension. *)
Theorem bare_extension_rejected
    (tr : engine) (env : OsEnv) (file : UploadFile) (lang : option string)
    (w : world) (t : string) :
  filename file = Some ("." +:+ t) ->
  PyStr.contains t "." = false ->
  PyStr.contains t "/" = false ->
  splitext ("." +:+ t) = ("." +:+ t, "")
  ∧ file_extension file = ""
  ∧ http_status (fst (transcribe_audio tr env file lang w)) = 400
  ∧ snd (transcribe_audio tr env file lang w) = w.
Proof.
  intros Hname Hdot Hsep.
  assert (Hsplit : splitext ("." +:+ t) = ("." +:+ t, "")).
  { unfold splitext, PyStr.rfind.
    change ("." +:+ t) with (String "." t). cbn [PyStr.rfind_from].
    rewrite !rfind_from_absent by assumption. reflexivity. }
  assert (Hext : file_extension file = "").
  { unfold file_extension. rewrite Hname.
    change (default "" (Some ("." +:+ t))) with ("." +:+ t).
    by rewrite Hsplit. }
  assert (Hp : passes_validation file = false).
  { unfold passes_validation. rewrite Hext. apply andb_false_r. }
  destruct (validate_rejects env file w Hp) as [detail Hd].
  rewrite (transcribe_audio_rejected tr env file lang w detail Hd).
  done.
Qed.

Lemma bare_extension_rejected_witness :
  splitext ("." +:+ "wav") = ("." +:+ "wav", "")
  ∧ file_extension (with_filename (Some ".wav") Demo.sample_wav) = ""
  ∧ http_status
      (fst (transcribe_audio (transcribe Demo.backend) Demo.env_ok
              (with_filename (Some ".wav") Demo.sample_wav) None Demo.w1))
    = 400
  ∧ snd (transcribe_audio (transcribe Demo.backend) Demo.env_ok
           (with_filename (Some ".wav") Demo.sample_wav) None Demo.w1)
    = Demo.w1.
Proof.
  apply (bare_extension_rejected (transcribe Demo.backend) Demo.env_ok
           (with_filename (Some ".wav") Demo.sample_wav) None Demo.w1 "wav");
    reflexivity.
Defined.

(** ** The language parameter *)

(** X19: the [language] parameter is only echoed.  It never reaches the
    engine and is not checked: two requests that differ in it alone leave
    the same world (files, trace, engine calls) and get the same error, or
    two dictionaries that agree on every key but "language". *)
Theorem language_is_only_echoed
    (tr : engine) (env : OsEnv) (file : UploadFile)
    (lang1 lang2 : option string) (w : world) :
  snd (transcribe_audio tr env file lang1 w)
  = snd (transcribe_audio tr env file lang2 w)
  ∧ match fst (transcribe_audio tr env file lang1 w),
          fst (transcribe_audio tr env file lang2 w) with
    | Ok d1, Ok d2 =>
        dict_get d1 "language" = Some (PStr (default "sw" lang1))
        ∧ dict_get d2 "language" = Some (PStr (default "sw" lang2))
        ∧ ∀ k, k ≠ "language" -> dict_get d1 k = dict_get d2 k
    | Raise e1, Raise e2 => e1 = e2
    | _, _ => False
    end.
Proof.
  destruct (passes_validation file) eqn:Hv.
  2:{ destruct (validate_rejects env file w Hv) as [detail Hd].
      rewrite !(transcribe_audio_rejected tr env file _ w detail Hd).
      done. }
  destruct (stage_cases env w) as [[path Hs] | [Hno | (path & Hn & Hc & Hrw)]].
  - destruct (tr path (staged_world file path w)) as [l r] eqn:Htr.
    rewrite (transcribe_audio_run_events tr env file lang1 w path l r
               Hv Hs Htr).
    rewrite (transcribe_audio_run_events tr env file lang2 w path l r
               Hv Hs Htr).
    split; [reflexivity|].
    destruct (transcribe_audio_run tr env file lang1 w path Hv Hs l r Htr)
      as (evs1 & -> & _).
    destruct (transcribe_audio_run tr env file lang2 w path Hv Hs l r Htr)
      as (evs2 & -> & _).
    cbn [fst].
    destruct r as [t|e]; [|by destruct (is_ASRError e)].
    split; [reflexivity|]. split; [reflexivity|].
    intros k Hk. cbn [dict_get].
    destruct (String.eqb k "status"); [reflexivity|].
    destruct (String.eqb k "transcription"); [reflexivity|].
    destruct (String.eqb_spec k "language") as [->|_]; [done|reflexivity].
  - destruct (stage_no_file env file w Hno) as [msg Hst].
    by rewrite !(transcribe_audio_stage_fails tr env file _ w _ _ Hv Hst).
  - destruct (stage_after_create env file w path Hn Hc Hrw) as [msg Hst].
    by rewrite !(transcribe_audio_stage_fails tr env file _ w _ _ Hv Hst).
Qed.
